(** * Hotel manager: the booking lifecycle of [hotel.py]

    A shallow embedding of the Flask handlers of [hotel.py] over an explicit
    model of the three SQLite tables, followed by the properties of the
    booking lifecycle.

    Layout:
    - [Float]: Python [float] values (IEEE 754 binary64) with the operations
      the handlers use: [*], [round(_, n)], comparison with zero;
    - [Date]: [datetime.date] values, their order and their difference;
    - [Library]: the library calls whose result depends on text parsing
      ([str.strip], [float(_)], [strptime], SQLite's text-to-integer
      conversion), as a class the handlers are parametric in;
    - [Room], [Guest], [Booking], [DB]: rows and tables of [SCHEMA_SQL];
    - the handlers [rooms], [guests], [bookings], [seed] and
      [compute_total_amount], as functions from a request and a database to
      a response and a database;
    - the theorems.

    The column [created_at] is filled by the database clock and is read by no
    handler that writes; it is left out of the rows. *)

From Stdlib Require Import ZArith List String Ascii Bool Lia.
From Stdlib Require Import SpecFloat.
From Stdlib Require Import Sorted.
Import ListNotations.

Local Open Scope string_scope.
Local Open Scope list_scope.
Local Open Scope Z_scope.

(** ** Python floats *)

Module Float.

(** binary64: 53 bits of mantissa, infinities at exponent 1024. *)
Definition prec : Z := 53.
Definition emax : Z := 1024.

Definition t : Type := spec_float.

Definition zero : t := S754_zero false.

(** [x * y] on floats. *)
Definition mul (x y : t) : t := SFmul prec emax x y.

(** The conversion of a Python [int] operand to [float], correctly
    rounded (exact below [2^53]). *)
Definition of_int (n : Z) : t := binary_normalize prec emax n 0 false.

Definition ltb (x y : t) : bool := SFltb x y.
Definition leb (x y : t) : bool := SFleb x y.

Definition is_nan (x : t) : bool :=
  match x with S754_nan => true | _ => false end.

(** [n / d] rounded to the nearest integer, ties to even ([0 <= n], [0 < d]). *)
Definition round_half_even (n d : Z) : Z :=
  let q := n / d in
  let r := n mod d in
  match 2 * r ?= d with
  | Gt => q + 1
  | Eq => if Z.even q then q else q + 1
  | Lt => q
  end.

(** The integer nearest to [m * 2^e * 10^ndigits], ties to even. *)
Definition scaled (m : positive) (e : Z) (ndigits : N) : Z :=
  let p10 := 10 ^ Z.of_N ndigits in
  match e with
  | Zneg k => round_half_even (Zpos m * p10) (2 ^ Zpos k)
  | _ => Zpos m * 2 ^ e * p10
  end.

(** [round(x, ndigits)] for [ndigits >= 0]: infinities and NaN round to
    themselves; a finite [x] is rounded, on its exact value, to the nearest
    multiple [c / 10^ndigits] (ties to even), and the result is the float
    nearest to that decimal, with the sign of [x]. *)
Definition round (x : t) (ndigits : N) : t :=
  match x with
  | S754_finite s m e =>
      match scaled m e ndigits with
      | Zpos c =>
          SFdiv prec emax (S754_finite s c 0)
            (S754_finite false (Z.to_pos (10 ^ Z.of_N ndigits)) 0)
      | _ => S754_zero s
      end
  | _ => x
  end.

(** [x < 0]. *)
Definition negative (x : t) : bool := ltb x zero.

(** [x >= 0], as SQLite's [CHECK(price_per_night >= 0)] evaluates it on a
    REAL value. *)
Definition nonneg (x : t) : bool := leb zero x.

End Float.

(** ** Python dates *)

Module Date.

Definition is_leap (year : Z) : bool :=
  (year mod 4 =? 0) && (negb (year mod 100 =? 0) || (year mod 400 =? 0)).

Definition days_in_month (year month : Z) : Z :=
  match month with
  | 1 => 31
  | 2 => if is_leap year then 29 else 28
  | 3 => 31 | 4 => 30 | 5 => 31 | 6 => 30
  | 7 => 31 | 8 => 31 | 9 => 30 | 10 => 31 | 11 => 30 | 12 => 31
  | _ => -1
  end.

(** The check of the [date(year, month, day)] constructor. *)
Definition valid_ymd (year month day : Z) : bool :=
  (1 <=? year) && (year <=? 9999) && (1 <=? month) && (month <=? 12)
  && (1 <=? day) && (day <=? days_in_month year month).

(** A [datetime.date] object: the constructor admits valid dates only. *)
Record t : Type := mk {
  year : Z;
  month : Z;
  day : Z;
  date_ok : valid_ymd year month day = true
}.

(** [date(year, month, day)]; [None] stands for [ValueError]. *)
Definition make (y m d : Z) : option t :=
  match valid_ymd y m d as b return valid_ymd y m d = b -> option t with
  | true => fun H => Some (mk y m d H)
  | false => fun _ => None
  end eq_refl.

Definition days_before_year (year : Z) : Z :=
  let y := year - 1 in
  y * 365 + y / 4 - y / 100 + y / 400.

Definition days_before_month (year month : Z) : Z :=
  match month with
  | 1 => 0 | 2 => 31 | 3 => 59 | 4 => 90 | 5 => 120 | 6 => 151
  | 7 => 181 | 8 => 212 | 9 => 243 | 10 => 273 | 11 => 304 | 12 => 334
  | _ => -1
  end + (if (2 <? month) && is_leap year then 1 else 0).

(** [d.toordinal()]: 1 for 0001-01-01. *)
Definition toordinal (d : t) : Z :=
  days_before_year (year d) + days_before_month (year d) (month d) + day d.

(** [d1 < d2]: dates compare as the triples (year, month, day). *)
Definition ltb (d1 d2 : t) : bool :=
  (year d1 <? year d2)
  || ((year d1 =? year d2)
      && ((month d1 <? month d2)
          || ((month d1 =? month d2) && (day d1 <? day d2)))).

(** [(d2 - d1).days]. *)
Definition days_between (d2 d1 : t) : Z := toordinal d2 - toordinal d1.

End Date.

(** ** Library calls on text

    The handlers receive every request parameter as text and hand it to
    library functions.  The handlers are parametric in these; [None] stands
    for the exception the call raises. *)

Class Library : Type := {
  (** [s.strip()] *)
  strip : string -> string;
  (** [float(s)]; [None] is [ValueError]. *)
  py_float : string -> option Float.t;
  (** [datetime.strptime(s, "%Y-%m-%d").date()]; [None] is [ValueError]. *)
  strptime : string -> option Date.t;
  (** The integer SQLite reads in a TEXT parameter that is compared with, or
      stored in, an INTEGER column; [None] when the text stays text (and then
      equals no integer key). *)
  sql_integer : string -> option Z
}.

(** ** Rows of [SCHEMA_SQL] *)

Module Room.
Inductive status_t : Type := Available | Occupied | Maintenance.

Record t : Type := mk {
  id : Z;
  number : string;
  type : string;
  price_per_night : Float.t;
  status : status_t
}.

Definition set_status (s : status_t) (r : t) : t :=
  mk (id r) (number r) (type r) (price_per_night r) s.

End Room.

Module Guest.
Record t : Type := mk {
  id : Z;
  name : string;
  phone : string;
  email : string
}.
End Guest.

Module Booking.
Inductive status_t : Type := Booked | Checked_In | Checked_Out | Cancelled.

Record t : Type := mk {
  id : Z;
  room_id : Z;
  guest_id : Z;
  check_in : string;
  check_out : string;
  status : status_t;
  total_amount : Float.t
}.

Definition set_status (s : status_t) (b : t) : t :=
  mk (id b) (room_id b) (guest_id b) (check_in b) (check_out b) s
     (total_amount b).


(** The statuses during which the room is taken. *)
Definition active (b : t) : bool :=
  match status b with
  | Booked | Checked_In => true
  | Checked_Out | Cancelled => false
  end.

Definition terminal (s : status_t) : bool :=
  match s with
  | Checked_Out | Cancelled => true
  | Booked | Checked_In => false
  end.
End Booking.

(** ** The database *)

(** A constraint of [SCHEMA_SQL], by table and column. *)
Inductive constraint : Type :=
| NotNull (table column : string)
| CheckExpr (table column : string)
| Unique (table column : string)
| ForeignKey (table column : string).

Module DB.

Record t : Type := mk {
  rooms : list Room.t;
  guests : list Guest.t;
  bookings : list Booking.t
}.

(** The tables [init_db] creates. *)
Definition empty : t := mk [] [] [].

(** [INTEGER PRIMARY KEY AUTOINCREMENT]: one more than the largest key in
    use (no handler deletes a row). *)
Definition next_id (ids : list Z) : Z := 1 + fold_right Z.max 0 ids.

Definition room_types : list string := ["Single"; "Double"; "Suite"].

(** The float a REAL column gives back for a bound float: SQLite keeps a
    float without fraction as an integer and converts it back when it is
    read, so a negative zero comes back as zero; every other value comes
    back as it was. *)
Definition real (x : Float.t) : Float.t :=
  match x with
  | S754_zero _ => Float.zero
  | _ => x
  end.

Section Statements.
Context {L : Library}.

(** [WHERE id = ?] with a parameter bound from request text ([None] is
    Python's [None], bound as NULL). *)
Definition key_is (param : option string) (key : Z) : bool :=
  match param with
  | Some s =>
      match sql_integer s with
      | Some n => n =? key
      | None => false
      end
  | None => false
  end.

(** [WHERE id = (subquery)] with the value of a scalar subquery ([None]
    is NULL). *)
Definition key_eq (v : option Z) (key : Z) : bool :=
  match v with
  | Some n => n =? key
  | None => false
  end.

(** A child key bound from request text: NOT NULL, then the reference. *)
Definition reference (table column : string) (param : option string)
    (keys : list Z) : list constraint :=
  match param with
  | None => [NotNull table column]
  | Some _ =>
      if existsb (key_is param) keys then []
      else [ForeignKey table column]
  end.

(** The constraints a new row of [rooms] violates.  A NaN is bound as
    NULL. *)
Definition room_violations (db : t) (number type : string)
    (price : Float.t) : list constraint :=
  (if Float.is_nan price then [NotNull "rooms" "price_per_night"]
   else if Float.nonneg price then []
   else [CheckExpr "rooms" "price_per_night"])
  ++ (if existsb (String.eqb type) room_types then []
      else [CheckExpr "rooms" "type"])
  ++ (if existsb (fun r => String.eqb (Room.number r) number) (rooms db)
      then [Unique "rooms" "number"] else []).

(** [INSERT INTO rooms(number, type, price_per_night, status)]: the new
    database, or the constraints the row violates (and no change). *)
Definition insert_room (db : t) (number type : string) (price : Float.t)
    (status : Room.status_t) : t + list constraint :=
  match room_violations db number type price with
  | [] =>
      inl (mk (rooms db
               ++ [Room.mk (next_id (map Room.id (rooms db))) number type
                     (real price) status])
              (guests db) (bookings db))
  | cs => inr cs
  end.

(** [INSERT INTO guests(name, phone, email)]. *)
Definition insert_guest (db : t) (name phone email : string) : t :=
  mk (rooms db)
     (guests db
      ++ [Guest.mk (next_id (map Guest.id (guests db))) name phone email])
     (bookings db).

Definition booking_violations (db : t) (room_id guest_id : option string)
    (total : Float.t) : list constraint :=
  reference "bookings" "room_id" room_id (map Room.id (rooms db))
  ++ reference "bookings" "guest_id" guest_id (map Guest.id (guests db))
  ++ (if Float.is_nan total then [NotNull "bookings" "total_amount"]
      else []).

Definition integer_of (param : option string) : option Z :=
  match param with
  | Some s => sql_integer s
  | None => None
  end.

(** [INSERT INTO bookings(room_id, guest_id, check_in, check_out,
    total_amount)]; the status defaults to ['Booked']. *)
Definition insert_booking (db : t) (room_id guest_id : option string)
    (check_in check_out : string) (total : Float.t)
    : t + list constraint :=
  match booking_violations db room_id guest_id total,
        integer_of room_id, integer_of guest_id with
  | [], Some rid, Some gid =>
      inl (mk (rooms db) (guests db)
              (bookings db
               ++ [Booking.mk (next_id (map Booking.id (bookings db)))
                     rid gid check_in check_out Booking.Booked
                     (real total)]))
  | cs, _, _ => inr cs
  end.

(** [UPDATE bookings SET status = s WHERE id = ?]. *)
Definition update_booking_status (db : t) (s : Booking.status_t)
    (bid : option string) : t :=
  mk (rooms db) (guests db)
     (map (fun b => if key_is bid (Booking.id b)
                    then Booking.set_status s b else b)
          (bookings db)).

(** [SELECT room_id FROM bookings WHERE id = ?] as a scalar subquery. *)
Definition select_room_id (db : t) (bid : option string) : option Z :=
  option_map Booking.room_id
    (find (fun b => key_is bid (Booking.id b)) (bookings db)).

(** [UPDATE rooms SET status = s WHERE id ...], for the rows whose key
    satisfies [p]. *)
Definition update_room_status (db : t) (s : Room.status_t)
    (p : Z -> bool) : t :=
  mk (map (fun r => if p (Room.id r) then Room.set_status s r else r)
          (rooms db))
     (guests db) (bookings db).

(** [SELECT id, price_per_night FROM rooms WHERE id = ?] then
    [fetchone()]. *)
Definition select_room (db : t) (room_id : option string)
    : option Room.t :=
  find (fun r => key_is room_id (Room.id r)) (rooms db).

End Statements.
End DB.

(** ** Requests and responses *)

Inductive http_method : Type := GET | POST.

Record request : Type := mk_request {
  method : http_method;
  args : list (string * string);
  form : list (string * string)
}.

(** [d.get(key)]. *)
Fixpoint get (d : list (string * string)) (key : string) : option string :=
  match d with
  | [] => None
  | (k, v) :: d' => if String.eqb k key then Some v else get d' key
  end.

(** [d.get(key, default)]. *)
Definition get_default (d : list (string * string)) (key default : string)
    : string :=
  match get d key with
  | Some v => v
  | None => default
  end.

(** The truth value of an optional text: [None] and [""] are false. *)
Definition truthy (v : option string) : bool :=
  match v with
  | Some s => negb (String.eqb s "")
  | None => false
  end.

(** [v == s] for an optional text [v]. *)
Definition equals (v : option string) (s : string) : bool :=
  match v with
  | Some x => String.eqb x s
  | None => false
  end.

Inductive exn : Type :=
| ValueError
| IntegrityError (violated : list constraint).

(** The messages the handlers flash. *)
Inductive message : Type :=
| Room_number_required
| Room_added
| Error (e : exn)
| Guest_name_required
| Guest_added
| Guest_checked_in
| Guest_checked_out
| Booking_cancelled
| Invalid_dates
| Invalid_room
| Booking_created
| Seeded.

Inductive response : Type :=
| RedirectTo (endpoint : string) (flashed : option message)
| Page (title : string) (flashed : option message)
| Json
| MethodNotAllowed
| Raise (e : exn).

(** ** The handlers *)

Section Handlers.
Context {L : Library}.

Definition compute_total_amount (price_per_night : Float.t)
    (check_in check_out : string) : option Float.t :=
  match strptime check_in with
  | None => None
  | Some d1 =>
      match strptime check_out with
      | None => None
      | Some d2 =>
          let nights := Z.max (Date.days_between d2 d1) 0 in
          Some (Float.round (Float.mul price_per_night (Float.of_int nights)) 2)
      end
  end.

(** [float(price or 0)] *)
Definition float_or_0 (price : string) : option Float.t :=
  if String.eqb price "" then Some (Float.of_int 0) else py_float price.

(** [/rooms] *)
Definition rooms (req : request) (db : DB.t) : response * DB.t :=
  match method req with
  | POST =>
      let number := strip (get_default (form req) "number" "") in
      let rtype := get_default (form req) "type" "Single" in
      let price := strip (get_default (form req) "price" "0") in
      if String.eqb number "" then
        (Page "Rooms" (Some Room_number_required), db)
      else
        match float_or_0 price with
        | None => (Raise ValueError, db)
        | Some p =>
            match DB.insert_room db number rtype p Room.Available with
            | inl db' => (RedirectTo "rooms" (Some Room_added), db')
            | inr cs => (Page "Rooms" (Some (Error (IntegrityError cs))), db)
            end
        end
  | GET => (Page "Rooms" None, db)
  end.

(** [/guests] *)
Definition guests (req : request) (db : DB.t) : response * DB.t :=
  match method req with
  | POST =>
      let name := strip (get_default (form req) "name" "") in
      let phone := strip (get_default (form req) "phone" "") in
      let email := strip (get_default (form req) "email" "") in
      if String.eqb name "" then
        (Page "Guests" (Some Guest_name_required), db)
      else
        (RedirectTo "guests" (Some Guest_added),
         DB.insert_guest db name phone email)
  | GET => (Page "Guests" None, db)
  end.

(** The two [UPDATE]s of an action branch of [/bookings]. *)
Definition set_statuses (db : DB.t) (bid : option string)
    (b : Booking.status_t) (r : Room.status_t) : DB.t :=
  let db1 := DB.update_booking_status db b bid in
  DB.update_room_status db1 r (DB.key_eq (DB.select_room_id db1 bid)).

(** The date check of [/bookings]: both texts parse and the [assert]
    finds [d_out > d_in]; anything else raises ([TypeError] on a missing
    field, [ValueError], [AssertionError]) and is caught.  The module is run
    as its header says, without [-O], so the [assert] is executed. *)
Definition valid_dates (check_in check_out : option string) : bool :=
  match check_in, check_out with
  | Some ci, Some co =>
      match strptime ci, strptime co with
      | Some d_in, Some d_out => Date.ltb d_in d_out
      | _, _ => false
      end
  | _, _ => false
  end.

(** The [POST] branch of [/bookings]. *)
Definition create_booking (req : request) (db : DB.t) : response * DB.t :=
  let room_id := get (form req) "room_id" in
  let guest_id := get (form req) "guest_id" in
  let check_in := get (form req) "check_in" in
  let check_out := get (form req) "check_out" in
  if negb (valid_dates check_in check_out) then
    (RedirectTo "bookings" (Some Invalid_dates), db)
  else
    match DB.select_room db room_id with
    | None => (RedirectTo "bookings" (Some Invalid_room), db)
    | Some row =>
        let ci := match check_in with Some s => s | None => "" end in
        let co := match check_out with Some s => s | None => "" end in
        match compute_total_amount (Room.price_per_night row) ci co with
        | None => (Raise ValueError, db)
        | Some total =>
            match DB.insert_booking db room_id guest_id ci co total with
            | inr cs => (Raise (IntegrityError cs), db)
            | inl db1 =>
                (RedirectTo "bookings" (Some Booking_created),
                 DB.update_room_status db1 Room.Occupied (DB.key_is room_id))
            end
        end
    end.

(** [/bookings] *)
Definition bookings (req : request) (db : DB.t) : response * DB.t :=
  let action := get (args req) "action" in
  let bid := get (args req) "id" in
  if truthy action && truthy bid then
    if equals action "checkin" then
      (RedirectTo "bookings" (Some Guest_checked_in),
       set_statuses db bid Booking.Checked_In Room.Occupied)
    else if equals action "checkout" then
      (RedirectTo "bookings" (Some Guest_checked_out),
       set_statuses db bid Booking.Checked_Out Room.Available)
    else if equals action "cancel" then
      (RedirectTo "bookings" (Some Booking_cancelled),
       set_statuses db bid Booking.Cancelled Room.Available)
    else (RedirectTo "bookings" None, db)
  else
    match method req with
    | POST => create_booking req db
    | GET => (Page "Bookings" None, db)
    end.

(** The rows [/seed] inserts. *)
Definition seed_rooms : list (string * string * Z * Room.status_t) :=
  [ ("101", "Single", 1500, Room.Available);
    ("102", "Double", 2500, Room.Available);
    ("201", "Suite", 5000, Room.Maintenance) ].

Definition seed_guests : list (string * string * string) :=
  [ ("Aarav Sharma", "9999999999", "aarav@example.com");
    ("Isha Patel", "8888888888", "isha@example.com") ].

(** [executemany] over rows of [rooms]: stops at the first failing row. *)
Fixpoint insert_rooms (db : DB.t)
    (rows : list (string * string * Z * Room.status_t))
    : DB.t + list constraint :=
  match rows with
  | [] => inl db
  | (number, type, price, status) :: rows' =>
      match DB.insert_room db number type (Float.of_int price) status with
      | inl db' => insert_rooms db' rows'
      | inr cs => inr cs
      end
  end.

Definition insert_guests (db : DB.t)
    (rows : list (string * string * string)) : DB.t :=
  fold_left (fun d '(name, phone, email) => DB.insert_guest d name phone email)
    rows db.

(** [/seed] (GET only). *)
Definition seed (req : request) (db : DB.t) : response * DB.t :=
  match method req with
  | POST => (MethodNotAllowed, db)
  | GET =>
      match (if (Z.of_nat (List.length (DB.rooms db)) =? 0)
             then insert_rooms db seed_rooms else inl db) with
      | inr cs => (Raise (IntegrityError cs), db)
      | inl db1 =>
          (RedirectTo "index" (Some Seeded),
           if (Z.of_nat (List.length (DB.guests db1)) =? 0)
           then insert_guests db1 seed_guests else db1)
      end
  end.

(** The routes of the application. *)
Inductive route : Type :=
| Index | Rooms | Guests | Bookings | ApiRooms | ApiGuests | ApiBookings
| Seed.

Definition read_only (r : response) (req : request) (db : DB.t)
    : response * DB.t :=
  match method req with
  | GET => (r, db)
  | POST => (MethodNotAllowed, db)
  end.

Definition app (rt : route) (req : request) (db : DB.t) : response * DB.t :=
  match rt with
  | Index => read_only (Page "Dashboard" None) req db
  | Rooms => rooms req db
  | Guests => guests req db
  | Bookings => bookings req db
  | ApiRooms | ApiGuests | ApiBookings => read_only Json req db
  | Seed => seed req db
  end.

(** The databases the application reaches from the tables of [init_db]. *)
Inductive reachable : DB.t -> Prop :=
| reachable_init : reachable DB.empty
| reachable_step rt req db :
    reachable db -> reachable (snd (app rt req db)).

End Handlers.

(** ** A library for running the handlers

    An executable [Library] over ASCII text: it accepts the texts the
    examples use and reads them as Python and SQLite do. It covers plain
    decimal numerals only; the theorems below hold for every [Library]. *)

Module Text.

Definition digit (c : ascii) : option Z :=
  let n := Z.of_N (N_of_ascii c) in
  if (48 <=? n) && (n <=? 57) then Some (n - 48) else None.

(** The value of a text of digits after the digits of value [acc]. *)
Fixpoint digits_from (acc : Z) (s : string) : option Z :=
  match s with
  | EmptyString => Some acc
  | String c s' =>
      match digit c with
      | Some d => digits_from (10 * acc + d) s'
      | None => None
      end
  end.

(** The value of a non-empty text of digits. *)
Definition digits (s : string) : option Z :=
  match s with
  | EmptyString => None
  | _ => digits_from 0 s
  end.

Definition is_space (c : ascii) : bool :=
  let n := N_of_ascii c in
  ((9 <=? n) && (n <=? 13))%N || (n =? 32)%N.

Fixpoint lstrip (s : string) : string :=
  match s with
  | String c s' => if is_space c then lstrip s' else s
  | EmptyString => EmptyString
  end.

Fixpoint rstrip (s : string) : string :=
  match s with
  | String c s' =>
      match rstrip s' with
      | EmptyString => if is_space c then EmptyString else String c EmptyString
      | r => String c r
      end
  | EmptyString => EmptyString
  end.

Definition strip (s : string) : string := rstrip (lstrip s).

(** The text before the first [sep] and the text after it. *)
Fixpoint split_at (sep : ascii) (s : string) : option (string * string) :=
  match s with
  | EmptyString => None
  | String c s' =>
      if Ascii.eqb c sep then Some (EmptyString, s')
      else match split_at sep s' with
           | Some (a, b) => Some (String c a, b)
           | None => None
           end
  end.

Definition signed (s : string) : bool * string :=
  match s with
  | String "-" s' => (true, s')
  | String "+" s' => (false, s')
  | _ => (false, s)
  end.

(** [sign digits] or [sign digits.digits], with a digit on one side at
    least: the float nearest to the decimal. *)
Definition py_float (s : string) : option Float.t :=
  let '(neg, body) := signed s in
  let '(ip, fp) := match split_at "." body with
                   | Some (a, b) => (a, b)
                   | None => (body, EmptyString)
                   end in
  match ip, fp with
  | EmptyString, EmptyString => None
  | _, _ =>
      match digits_from 0 ip with
      | None => None
      | Some i =>
          match digits_from i fp with
          | Some (Zpos n) =>
              Some (SFdiv Float.prec Float.emax (S754_finite neg n 0)
                      (S754_finite false
                         (Z.to_pos (10 ^ Z.of_nat (String.length fp))) 0))
          | Some _ => Some (S754_zero neg)
          | None => None
          end
      end
  end.

(** The directive [%m]: [1[0-2]|0[1-9]|[1-9]]. *)
Definition month_text (s : string) : option Z :=
  match s with
  | String c EmptyString =>
      match digit c with
      | Some d => if 1 <=? d then Some d else None
      | None => None
      end
  | String c1 (String c2 EmptyString) =>
      match digit c1, digit c2 with
      | Some 1, Some d => if d <=? 2 then Some (10 + d) else None
      | Some 0, Some d => if 1 <=? d then Some d else None
      | _, _ => None
      end
  | _ => None
  end.

(** The directive [%d]: [3[0-1]|[1-2]\d|0[1-9]|[1-9]| [1-9]]. *)
Definition day_text (s : string) : option Z :=
  match s with
  | String c EmptyString =>
      match digit c with
      | Some d => if 1 <=? d then Some d else None
      | None => None
      end
  | String " " (String c EmptyString) =>
      match digit c with
      | Some d => if 1 <=? d then Some d else None
      | None => None
      end
  | String c1 (String c2 EmptyString) =>
      match digit c1, digit c2 with
      | Some 3, Some d => if d <=? 1 then Some (30 + d) else None
      | Some 0, Some d => if 1 <=? d then Some d else None
      | Some 1, Some d => Some (10 + d)
      | Some 2, Some d => Some (20 + d)
      | _, _ => None
      end
  | _ => None
  end.

(** The format ["%Y-%m-%d"]: four digits, a month and a day up to the end
    of the text, then the [date] constructor. *)
Definition strptime (s : string) : option Date.t :=
  match s with
  | String a (String b (String c (String d (String "-" rest)))) =>
      match digits (String a (String b (String c (String d EmptyString)))),
            split_at "-" rest with
      | Some y, Some (mt, dt) =>
          match month_text mt, day_text dt with
          | Some m, Some dd => Date.make y m dd
          | _, _ => None
          end
      | _, _ => None
      end
  | _ => None
  end.

(** A decimal integer, with or without sign. *)
Definition sql_integer (s : string) : option Z :=
  let '(neg, body) := signed s in
  match digits body with
  | Some n => Some (if neg then - n else n)
  | None => None
  end.

Definition library : Library :=
  Build_Library strip py_float strptime sql_integer.

End Text.

(** ** Reading a database *)

(** The row of [bookings] with key [n]. *)
Definition booking_at (db : DB.t) (n : Z) : option Booking.t :=
  find (fun b => Booking.id b =? n) (DB.bookings db).

(** The row of [rooms] with key [n]. *)
Definition room_at (db : DB.t) (n : Z) : option Room.t :=
  find (fun r => Room.id r =? n) (DB.rooms db).

(** The bookings that refer to the room with key [rid]. *)
Definition bookings_of (db : DB.t) (rid : Z) : list Booking.t :=
  filter (fun b => Booking.room_id b =? rid) (DB.bookings db).

(** The room with key [rid] has a booking that is [Booked] or [Checked-In]. *)
Definition has_active (db : DB.t) (rid : Z) : bool :=
  existsb Booking.active (bookings_of db rid).

(** ** The failures of the specification

    The specification names three kinds of failure.  A handler fails by
    flashing a message or by raising; an [IntegrityError] is of the kinds of
    the constraints the rejected row violates. *)

Inductive error : Type := ValidationError | NotFoundError | ConflictError.

Definition error_eqb (a b : error) : bool :=
  match a, b with
  | ValidationError, ValidationError
  | NotFoundError, NotFoundError
  | ConflictError, ConflictError => true
  | _, _ => false
  end.

Definition error_of_constraint (c : constraint) : error :=
  match c with
  | NotNull _ _ | CheckExpr _ _ => ValidationError
  | Unique _ _ => ConflictError
  | ForeignKey _ _ => NotFoundError
  end.

Definition exn_is (e : exn) (k : error) : bool :=
  match e with
  | ValueError => error_eqb k ValidationError
  | IntegrityError cs =>
      existsb (fun c => error_eqb (error_of_constraint c) k) cs
  end.

Definition message_is (m : message) (k : error) : bool :=
  match m with
  | Error e => exn_is e k
  | Room_number_required | Guest_name_required | Invalid_dates =>
      error_eqb k ValidationError
  | Invalid_room => error_eqb k NotFoundError
  | _ => false
  end.

(** The response reports a failure of kind [k]. *)
Definition fails_with (r : response) (k : error) : bool :=
  match r with
  | Raise e => exn_is e k
  | RedirectTo _ (Some m) | Page _ (Some m) => message_is m k
  | _ => false
  end.

(** The response reports a failure of some kind. *)
Definition fails (r : response) : bool :=
  fails_with r ValidationError || fails_with r NotFoundError
  || fails_with r ConflictError.

(** ** The calls of the specification as requests *)

(** [transition(bookingId, action)]: the link
    [/bookings?action=...&id=...]. *)
Definition transition (bid action : string) : request :=
  mk_request GET [("action", action); ("id", bid)] [].

(** [createBooking(roomId, guestId, checkIn, checkOut)]: the form posted to
    [/bookings]. *)
Definition createBooking (room_id guest_id check_in check_out : string)
    : request :=
  mk_request POST []
    [("room_id", room_id); ("guest_id", guest_id);
     ("check_in", check_in); ("check_out", check_out)].

(** [createRoom(number, category, price)]: the form posted to [/rooms]. *)
Definition createRoom (number category price : string) : request :=
  mk_request POST []
    [("number", number); ("type", category); ("price", price)].

(** [createGuest(name)]: the form posted to [/guests]. *)
Definition createGuest (name : string) : request :=
  mk_request POST [] [("name", name)].

(** A request takes the action branch of [/bookings]. *)
Definition is_action (req : request) : bool :=
  truthy (get (args req) "action") && truthy (get (args req) "id").

(** ** Well-formed databases *)

(** Not below zero: a NaN, a zero of either sign, or a positive value. *)
Definition not_neg (x : Float.t) : Prop :=
  match x with
  | S754_zero _ | S754_nan => True
  | S754_infinity s | S754_finite s _ _ => s = false
  end.

(** Not a negative zero and not below zero: a NaN or a value with the sign
    bit clear. *)
Definition sign_clear (x : Float.t) : Prop :=
  match x with
  | S754_nan => True
  | S754_zero s | S754_infinity s | S754_finite s _ _ => s = false
  end.

Record wf (db : DB.t) : Prop := mk_wf {
  (** every booking refers to a room *)
  wf_room_ref : forall b, In b (DB.bookings db) ->
      In (Booking.room_id b) (map Room.id (DB.rooms db));
  (** booking keys are distinct *)
  wf_booking_ids : NoDup (map Booking.id (DB.bookings db));
  (** no booking refers to a room under maintenance *)
  wf_maintenance : forall r, In r (DB.rooms db) ->
      Room.status r = Room.Maintenance -> bookings_of db (Room.id r) = [];
  (** a room with at most one booking is occupied exactly when that booking
      is active *)
  wf_occupied : forall r, In r (DB.rooms db) ->
      (List.length (bookings_of db (Room.id r)) <= 1)%nat ->
      (Room.status r = Room.Occupied <-> has_active db (Room.id r) = true);
  (** room numbers are not empty *)
  wf_number : forall r, In r (DB.rooms db) -> Room.number r <> "";
  (** prices satisfy their CHECK and are as the column gives them back *)
  wf_price : forall r, In r (DB.rooms db) ->
      Float.nonneg (Room.price_per_night r) = true
      /\ DB.real (Room.price_per_night r) = Room.price_per_night r
}.

(** ** Running the application *)

(** The database after a sequence of calls. *)
Definition run {L : Library} (calls : list (route * request)) (db : DB.t)
    : DB.t :=
  fold_left (fun d c => snd (app (fst c) (snd c) d)) calls db.

(** The scenario of the specification: room 101 at 1500 a night, guest A,
    booked from 2024-01-01 to 2024-01-03. *)
Definition scenario : list (route * request) :=
  [ (Rooms, createRoom "101" "Single" "1500");
    (Guests, createGuest "A");
    (Bookings, createBooking "1" "1" "2024-01-01" "2024-01-03") ].

Definition hotel : DB.t := run (L := Text.library) scenario DB.empty.

(** The same room booked a second time, then the first booking cancelled. *)
Definition hotel_twice : DB.t :=
  run (L := Text.library)
    [ (Bookings, createBooking "1" "1" "2024-02-01" "2024-02-03");
      (Bookings, transition "1" "cancel") ]
    hotel.

(** The guest of the scenario checked out. *)
Definition hotel_checked_out : DB.t :=
  run (L := Text.library) [ (Bookings, transition "1" "checkout") ] hotel.

(** The seeded database: room 201 (key 3) is under maintenance. *)
Definition hotel_seeded : DB.t :=
  run (L := Text.library) [ (Seed, mk_request GET [] []) ] DB.empty.

(** The rows of [hotel]. *)
Definition hotel_room : Room.t :=
  Room.mk 1 "101" "Single" (Float.of_int 1500) Room.Occupied.

Definition hotel_booking : Booking.t :=
  Booking.mk 1 1 1 "2024-01-01" "2024-01-03" Booking.Booked
    (Float.of_int 3000).

(** The seeded database with room 101 booked by the first guest. *)
Definition hotel_seeded_booked : DB.t :=
  run (L := Text.library)
    [ (Bookings, createBooking "1" "1" "2024-01-01" "2024-01-03") ]
    hotel_seeded.

(** Room 201 of the seeded database. *)
Definition room_201 : Room.t :=
  Room.mk 3 "201" "Suite" (Float.of_int 5000) Room.Maintenance.

(** ** Listings

    The queries behind the pages and the JSON endpoints.  [rows_to_list]
    turns the rows of a cursor into a list, in the order of the cursor. *)

(** The row of [guests] with key [n]. *)
Definition guest_at (db : DB.t) (n : Z) : option Guest.t :=
  find (fun g => Guest.id g =? n) (DB.guests db).

(** [x] put into [l] in front of the first row it goes before. *)
Fixpoint insert_by {A : Type} (before : A -> A -> bool) (x : A) (l : list A)
    : list A :=
  match l with
  | [] => [x]
  | y :: l' => if before x y then x :: l else y :: insert_by before x l'
  end.

(** [ORDER BY]: the rows sorted so that a row comes before the rows it goes
    [before]; rows that tie stay in the order of the table. *)
Definition order_by {A : Type} (before : A -> A -> bool) (l : list A)
    : list A :=
  fold_right (insert_by before) [] l.

(** [rows_to_list(cur)] *)
Definition rows_to_list {A : Type} (cur : list A) : list A := cur.

(** [/api/rooms]: [SELECT * FROM rooms ORDER BY id DESC]. *)
Definition api_rooms (db : DB.t) : list Room.t :=
  rows_to_list
    (order_by (fun a b => Room.id b <=? Room.id a) (DB.rooms db)).

(** [/api/guests]: [SELECT * FROM guests ORDER BY id DESC]. *)
Definition api_guests (db : DB.t) : list Guest.t :=
  rows_to_list
    (order_by (fun a b => Guest.id b <=? Guest.id a) (DB.guests db)).



(** The rooms the booking form offers: [SELECT id, number FROM rooms WHERE
    status != 'Maintenance' ORDER BY number]. *)
Definition rooms_available (db : DB.t) : list (Z * string) :=
  rows_to_list
    (map (fun r => (Room.id r, Room.number r))
       (order_by (fun a b => String.leb (Room.number a) (Room.number b))
          (filter
             (fun r => match Room.status r with
                       | Room.Maintenance => false
                       | _ => true
                       end)
             (DB.rooms db)))).

(** ** What the schema and the handlers keep *)

(** The keys 1, 2, ... in the order of insertion. *)
Definition keys_from_1 (ids : list Z) : Prop :=
  ids = map Z.of_nat (seq 1 (List.length ids)).

(** The total of a booking is the price of its room times its nights. *)
Definition total_of_stay {L : Library} (db : DB.t) (b : Booking.t) : Prop :=
  exists r d_in d_out,
    room_at db (Booking.room_id b) = Some r
    /\ strptime (Booking.check_in b) = Some d_in
    /\ strptime (Booking.check_out b) = Some d_out
    /\ Date.ltb d_in d_out = true
    /\ Booking.total_amount b
       = Float.round
           (Float.mul (Room.price_per_night r)
              (Float.of_int (Date.days_between d_out d_in))) 2.

Record schema_ok {L : Library} (db : DB.t) : Prop := mk_schema_ok {
  so_room_ids : keys_from_1 (map Room.id (DB.rooms db));
  so_guest_ids : keys_from_1 (map Guest.id (DB.guests db));
  so_booking_ids : keys_from_1 (map Booking.id (DB.bookings db));
  so_numbers : NoDup (map Room.number (DB.rooms db));
  so_types : forall r, In r (DB.rooms db) -> In (Room.type r) DB.room_types;
  so_names : forall g, In g (DB.guests db) -> Guest.name g <> "";
  so_guest_ref : forall b, In b (DB.bookings db) ->
      In (Booking.guest_id b) (map Guest.id (DB.guests db));
  so_totals : forall b, In b (DB.bookings db) ->
      total_of_stay db b /\ Float.is_nan (Booking.total_amount b) = false
}.

(** [db'] keeps the rows of [db]: every row is still at its place, a guest as
    it was, a room and a booking as they were but for the status. *)
Definition kept (db db' : DB.t) : Prop :=
  (forall i r, nth_error (DB.rooms db) i = Some r ->
     exists s, nth_error (DB.rooms db') i = Some (Room.set_status s r))
  /\ (forall i g, nth_error (DB.guests db) i = Some g ->
        nth_error (DB.guests db') i = Some g)
  /\ (forall i b, nth_error (DB.bookings db) i = Some b ->
        exists s, nth_error (DB.bookings db') i
                  = Some (Booking.set_status s b)).

(** ** Facts on dates *)

Section DateFacts.

Lemma valid_ymd_iff y m d :
  Date.valid_ymd y m d = true <->
  1 <= y <= 9999 /\ 1 <= m <= 12 /\ 1 <= d <= Date.days_in_month y m.
Proof.
  unfold Date.valid_ymd.
  rewrite !andb_true_iff, !Z.leb_le. tauto.
Qed.

Ltac month_arith y :=
  cbv [Date.days_before_month Date.days_in_month] in *;
  destruct (Date.is_leap y);
  cbn [Z.ltb Z.compare Pos.compare Pos.compare_cont andb] in *;
  lia.

Lemma month_cases m :
  1 <= m <= 12 ->
  m = 1 \/ m = 2 \/ m = 3 \/ m = 4 \/ m = 5 \/ m = 6 \/
  m = 7 \/ m = 8 \/ m = 9 \/ m = 10 \/ m = 11 \/ m = 12.
Proof. lia. Qed.

(** The year after [y] starts 365 or 366 days after [y] does. *)
Lemma days_before_year_succ y :
  Date.days_before_year (y + 1) =
  Date.days_before_year y + 365 + (if Date.is_leap y then 1 else 0).
Proof.
  unfold Date.days_before_year, Date.is_leap.
  replace (y + 1 - 1) with y by lia.
  destruct (y mod 4 =? 0) eqn:E4; destruct (y mod 100 =? 0) eqn:E100;
    destruct (y mod 400 =? 0) eqn:E400; simpl;
    rewrite ?Z.eqb_eq, ?Z.eqb_neq in *;
    Z.div_mod_to_equations; lia.
Qed.

Lemma days_before_year_mono y1 y2 :
  y1 <= y2 -> Date.days_before_year y1 <= Date.days_before_year y2.
Proof.
  intros H. unfold Date.days_before_year.
  Z.div_mod_to_equations. lia.
Qed.

(** The day of the year lies within the year. *)
Lemma day_of_year_bounds y m d :
  Date.valid_ymd y m d = true ->
  1 <= Date.days_before_month y m + d
    <= 365 + (if Date.is_leap y then 1 else 0).
Proof.
  rewrite valid_ymd_iff. intros (_ & Hm & Hd).
  destruct (month_cases m Hm) as
    [->|[->|[->|[->|[->|[->|[->|[->|[->|[->|[->| ->]]]]]]]]]]];
    month_arith y.
Qed.

(** Within a year, a later month starts after every day of an earlier one. *)
Lemma days_before_month_mono y m1 d1 m2 :
  Date.valid_ymd y m1 d1 = true -> 1 <= m2 <= 12 -> m1 < m2 ->
  Date.days_before_month y m1 + d1 <= Date.days_before_month y m2.
Proof.
  rewrite valid_ymd_iff. intros (_ & Hm1 & Hd1) Hm2 Hlt.
  destruct (month_cases m1 Hm1) as
    [->|[->|[->|[->|[->|[->|[->|[->|[->|[->|[->| ->]]]]]]]]]]];
    destruct (month_cases m2 Hm2) as
    [->|[->|[->|[->|[->|[->|[->|[->|[->|[->|[->| ->]]]]]]]]]]];
    try lia;
    month_arith y.
Qed.

(** The order of dates is the order of their ordinals. *)
Lemma ltb_toordinal d1 d2 :
  Date.ltb d1 d2 = true -> Date.toordinal d1 < Date.toordinal d2.
Proof.
  destruct d1 as [y1 m1 dd1 ok1], d2 as [y2 m2 dd2 ok2].
  unfold Date.ltb, Date.toordinal;
    cbn [Date.year Date.month Date.day].
  pose proof (day_of_year_bounds _ _ _ ok1) as B1.
  pose proof (day_of_year_bounds _ _ _ ok2) as B2.
  intros H.
  apply orb_true_iff in H as [Hy | H];
    [apply Z.ltb_lt in Hy
    | apply andb_true_iff in H as [Ey H]; apply Z.eqb_eq in Ey; subst y2;
      apply orb_true_iff in H as [Hm | H];
      [apply Z.ltb_lt in Hm
      | apply andb_true_iff in H as [Em Hd]; apply Z.eqb_eq in Em;
        apply Z.ltb_lt in Hd; subst m2]].
  - pose proof (days_before_year_succ y1) as S1.
    pose proof (days_before_year_mono (y1 + 1) y2 ltac:(lia)).
    clear ok1 ok2.
    destruct (Date.is_leap y1), (Date.is_leap y2); lia.
  - pose proof (proj1 (valid_ymd_iff _ _ _) ok2) as (_ & Hm2 & Hd2 & _).
    pose proof (days_before_month_mono _ _ _ _ ok1 Hm2 Hm).
    clear ok1 ok2. lia.
  - clear ok1 ok2. lia.
Qed.

Lemma ltb_days_between d_in d_out :
  Date.ltb d_in d_out = true -> 0 < Date.days_between d_out d_in.
Proof.
  intros H. apply ltb_toordinal in H. unfold Date.days_between. lia.
Qed.

End DateFacts.

(** ** Facts on floats *)

Section FloatFacts.

Lemma negative_false_iff x : Float.negative x = false <-> not_neg x.
Proof.
  destruct x as [s | s | | s m e]; cbn; try tauto;
    destruct s; cbn; intuition congruence.
Qed.

Lemma nonneg_not_neg x : Float.nonneg x = true -> not_neg x.
Proof.
  destruct x as [s | s | | s m e]; cbn; trivial;
    destruct s; cbn; congruence.
Qed.




Lemma sign_clear_not_neg x : sign_clear x -> not_neg x.
Proof. destruct x; cbn; trivial. Qed.

Lemma binary_round_aux_sign_clear m e l :
  sign_clear (binary_round_aux Float.prec Float.emax false m e l).
Proof.
  unfold binary_round_aux.
  destruct (shr_fexp _ _ m e l) as [mrs e'].
  destruct (shr_fexp _ _ _ e' loc_Exact) as [mrs' e''].
  destruct (shr_m mrs'); [reflexivity | | exact I].
  destruct (e'' <=? Float.emax - Float.prec); reflexivity.
Qed.

Lemma of_int_sign_clear n : 0 <= n -> sign_clear (Float.of_int n).
Proof.
  intros Hn. unfold Float.of_int, binary_normalize.
  destruct n as [| p | p]; cbn; trivial; try lia.
  unfold binary_round. destruct (shl_align _ _ _) as [mz ez].
  apply binary_round_aux_sign_clear.
Qed.

Lemma mul_sign_clear x y :
  sign_clear x -> sign_clear y -> sign_clear (Float.mul x y).
Proof.
  destruct x as [sx | sx | | sx mx ex], y as [sy | sy | | sy my ey];
    cbn; trivial; intros; subst; cbn; trivial.
  apply binary_round_aux_sign_clear.
Qed.

Lemma round_sign_clear x ndigits :
  sign_clear x -> sign_clear (Float.round x ndigits).
Proof.
  destruct x as [s | s | | s m e]; cbn; trivial.
  intros ->. destruct (Float.scaled m e ndigits); cbn; trivial.
  unfold SFdiv. destruct (SFdiv_core_binary _ _ _ _ _ _) as [[mz ez] lz].
  apply binary_round_aux_sign_clear.
Qed.

(** A value with the sign bit clear comes back from a REAL column as it
    is. *)
Lemma real_sign_clear x : sign_clear x -> DB.real x = x.
Proof. destruct x as [s | s | | s m e]; cbn; trivial. now intros ->. Qed.

Lemma real_real x : DB.real (DB.real x) = DB.real x.
Proof. now destruct x. Qed.

Lemma nonneg_real x : Float.nonneg x = true -> Float.nonneg (DB.real x) = true.
Proof. now destruct x. Qed.

(** A stored price has the sign bit clear. *)
Lemma stored_price_sign_clear x :
  Float.nonneg x = true -> DB.real x = x -> sign_clear x.
Proof.
  destruct x as [s | s | | s m e]; cbn; trivial.
  - intros _ [= <-]. reflexivity.
  - destruct s; [discriminate | reflexivity].
  - destruct s; [discriminate | reflexivity].
Qed.


End FloatFacts.

(** ** Facts on lists and keys *)

Section ListFacts.
Context {A : Type}.

Lemma find_map (p : A -> bool) (f : A -> A) (l : list A) :
  (forall x, p (f x) = p x) ->
  find p (map f l) = option_map f (find p l).
Proof.
  intros Hp. induction l as [| a l IH]; cbn; trivial.
  rewrite Hp. destruct (p a); cbn; auto.
Qed.

Lemma filter_map (p : A -> bool) (f : A -> A) (l : list A) :
  (forall x, p (f x) = p x) ->
  filter p (map f l) = map f (filter p l).
Proof.
  intros Hp. induction l as [| a l IH]; cbn; trivial.
  rewrite Hp. destruct (p a); cbn; congruence.
Qed.

Lemma map_fixed (f : A -> A) (l : list A) :
  (forall x, In x l -> f x = x) -> map f l = l.
Proof.
  intros Hf. induction l as [| a l IH]; cbn; trivial.
  rewrite Hf, IH; auto using in_eq, in_cons.
Qed.

Lemma find_none_iff (p : A -> bool) (l : list A) :
  find p l = None <-> forall x, In x l -> p x = false.
Proof.
  split.
  - apply find_none.
  - induction l as [| a l IH]; cbn; trivial.
    intros H. rewrite (H a) by auto. auto.
Qed.

Lemma find_pointwise (p q : A -> bool) (l : list A) :
  (forall x, p x = q x) -> find p l = find q l.
Proof.
  intros H. induction l as [| a l IH]; cbn; trivial.
  rewrite H, IH. reflexivity.
Qed.

(** Two rows with the same key, under distinct keys, are the same row. *)
Lemma NoDup_key_eq (key : A -> Z) (l : list A) (x y : A) :
  NoDup (map key l) -> In x l -> In y l -> key x = key y -> x = y.
Proof.
  induction l as [| a l IH]; cbn; [tauto |].
  intros ND [-> | Hx] [-> | Hy] E; trivial.
  - inversion ND as [| ? ? Hn _]; subst.
    exfalso. apply Hn. rewrite E. now apply in_map.
  - inversion ND as [| ? ? Hn _]; subst.
    exfalso. apply Hn. rewrite <- E. now apply in_map.
  - inversion ND; subst; auto.
Qed.

End ListFacts.

Lemma next_id_above (ids : list Z) (x : Z) :
  In x ids -> x < DB.next_id ids.
Proof.
  unfold DB.next_id. induction ids as [| a ids IH]; cbn [fold_right In];
    [tauto |].
  intros [-> | H]; [lia |]. specialize (IH H). lia.
Qed.

Lemma next_id_fresh (ids : list Z) : ~ In (DB.next_id ids) ids.
Proof. intros H. apply next_id_above in H. lia. Qed.

Lemma NoDup_app_fresh (ids : list Z) :
  NoDup ids -> NoDup (ids ++ [DB.next_id ids]).
Proof.
  intros ND. apply NoDup_app; trivial.
  - repeat constructor. cbn; tauto.
  - intros x Hx [<- | []]. now apply next_id_fresh in Hx.
Qed.

(** ** Facts on the statements *)

Section StatementFacts.
Context {L : Library}.

Lemma key_is_iff param k :
  DB.key_is param k = true <-> DB.integer_of param = Some k.
Proof.
  unfold DB.key_is, DB.integer_of.
  destruct param as [s |]; [| split; discriminate].
  destruct (sql_integer s) as [n |]; [| split; discriminate].
  rewrite Z.eqb_eq. split; congruence.
Qed.

Lemma key_eq_iff v k : DB.key_eq v k = true <-> v = Some k.
Proof.
  unfold DB.key_eq. destruct v as [n |]; [| split; discriminate].
  rewrite Z.eqb_eq. split; congruence.
Qed.

Lemma key_is_eqb param n k :
  DB.integer_of param = Some n -> DB.key_is param k = (k =? n).
Proof.
  intros H. destruct (DB.key_is param k) eqn:E.
  - apply key_is_iff in E. symmetry. apply Z.eqb_eq. congruence.
  - symmetry. apply Z.eqb_neq. intros ->.
    apply key_is_iff in H. congruence.
Qed.

Lemma db_eta (db : DB.t) :
  DB.mk (DB.rooms db) (DB.guests db) (DB.bookings db) = db.
Proof. now destruct db. Qed.

(** *** The action branches *)

Lemma select_room_id_update db s bid :
  DB.select_room_id (DB.update_booking_status db s bid) bid
  = DB.select_room_id db bid.
Proof.
  unfold DB.select_room_id, DB.update_booking_status; cbn.
  rewrite find_map.
  - destruct (find _ (DB.bookings db)) as [b |]; cbn; trivial.
    destruct (DB.key_is bid (Booking.id b)); reflexivity.
  - intros b. destruct (DB.key_is bid (Booking.id b)) eqn:E; cbn; auto.
Qed.

Lemma set_statuses_bookings db bid bs rs :
  DB.bookings (set_statuses db bid bs rs)
  = map (fun b => if DB.key_is bid (Booking.id b)
                  then Booking.set_status bs b else b)
      (DB.bookings db).
Proof. reflexivity. Qed.

Lemma set_statuses_rooms db bid bs rs :
  DB.rooms (set_statuses db bid bs rs)
  = map (fun r => if DB.key_eq (DB.select_room_id db bid) (Room.id r)
                  then Room.set_status rs r else r)
      (DB.rooms db).
Proof.
  unfold set_statuses. rewrite select_room_id_update. reflexivity.
Qed.

Lemma set_statuses_guests db bid bs rs :
  DB.guests (set_statuses db bid bs rs) = DB.guests db.
Proof. reflexivity. Qed.

(** An action on a key that no booking has changes nothing. *)
Lemma set_statuses_missing db bid bs rs :
  (forall b, In b (DB.bookings db) ->
             DB.key_is bid (Booking.id b) = false) ->
  set_statuses db bid bs rs = db.
Proof.
  intros H. rewrite <- (db_eta (set_statuses db bid bs rs)).
  rewrite set_statuses_bookings, set_statuses_rooms, set_statuses_guests.
  assert (DB.select_room_id db bid = None) as ->.
  { unfold DB.select_room_id.
    now rewrite (proj2 (find_none_iff _ _) H). }
  rewrite (map_fixed _ (DB.bookings db)) by (intros b Hb; now rewrite H).
  rewrite (map_fixed _ (DB.rooms db)) by reflexivity.
  apply db_eta.
Qed.

Lemma select_room_id_at db bid n :
  DB.integer_of bid = Some n ->
  DB.select_room_id db bid = option_map Booking.room_id (booking_at db n).
Proof.
  intros H. unfold DB.select_room_id, booking_at. f_equal.
  apply find_pointwise. intros b. now apply key_is_eqb.
Qed.

Lemma booking_at_set_statuses db bid bs rs n b :
  DB.integer_of bid = Some n ->
  booking_at db n = Some b ->
  booking_at (set_statuses db bid bs rs) n = Some (Booking.set_status bs b).
Proof.
  intros Hn Hb. unfold booking_at in *.
  rewrite set_statuses_bookings, find_map.
  - rewrite Hb; cbn. apply find_some in Hb as [_ Hb].
    rewrite (key_is_eqb _ _ _ Hn), Hb. reflexivity.
  - intros x. destruct (DB.key_is bid (Booking.id x)); reflexivity.
Qed.


(** A key among the keys of [rooms] has a row. *)
Lemma room_at_some db rid :
  In rid (map Room.id (DB.rooms db)) -> exists r, room_at db rid = Some r.
Proof.
  intros H. apply in_map_iff in H as (r & <- & Hr).
  unfold room_at.
  destruct (find _ (DB.rooms db)) as [r' |] eqn:E; [eauto |].
  apply (find_none _ _ E) in Hr. rewrite Z.eqb_refl in Hr. discriminate.
Qed.

End StatementFacts.

(** ** Every reachable database is well formed *)

Section Invariant.
Context {L : Library}.

Lemma filter_nil {A : Type} (p : A -> bool) (l : list A) :
  (forall x, In x l -> p x = false) -> filter p l = [].
Proof.
  intros H. induction l as [| a l IH]; cbn; trivial.
  rewrite (H a) by auto using in_eq. auto using in_cons.
Qed.

Lemma wf_empty : wf DB.empty.
Proof.
  constructor; cbn; try tauto. constructor.
Qed.

(** Well-formedness reads the rooms and the bookings only. *)
Lemma wf_same db db' :
  DB.rooms db' = DB.rooms db -> DB.bookings db' = DB.bookings db ->
  wf db -> wf db'.
Proof.
  intros Hr Hb [H1 H2 H3 H4 H5 H6].
  constructor; unfold has_active, bookings_of in *; rewrite ?Hr, ?Hb; auto.
Qed.

(** *** The action branches *)

Lemma set_statuses_room_ids db bid bs rs :
  map Room.id (DB.rooms (set_statuses db bid bs rs))
  = map Room.id (DB.rooms db).
Proof.
  rewrite set_statuses_rooms, map_map. apply map_ext.
  intros r. destruct (DB.key_eq _ (Room.id r)); reflexivity.
Qed.

Lemma set_statuses_booking_ids db bid bs rs :
  map Booking.id (DB.bookings (set_statuses db bid bs rs))
  = map Booking.id (DB.bookings db).
Proof.
  rewrite set_statuses_bookings, map_map. apply map_ext.
  intros b. destruct (DB.key_is bid (Booking.id b)); reflexivity.
Qed.

Lemma bookings_of_set_statuses db bid bs rs rid :
  bookings_of (set_statuses db bid bs rs) rid
  = map (fun b => if DB.key_is bid (Booking.id b)
                  then Booking.set_status bs b else b)
      (bookings_of db rid).
Proof.
  unfold bookings_of. rewrite set_statuses_bookings.
  apply filter_map.
  intros b. destruct (DB.key_is bid (Booking.id b)); reflexivity.
Qed.

(** The booking an action finds, when it finds one. *)
Lemma select_room_id_some db bid rid :
  DB.select_room_id db bid = Some rid ->
  exists b, In b (DB.bookings db) /\ DB.key_is bid (Booking.id b) = true
            /\ Booking.room_id b = rid.
Proof.
  unfold DB.select_room_id.
  destruct (find _ (DB.bookings db)) as [b |] eqn:E; [| discriminate].
  cbn. intros [= <-]. apply find_some in E as [Hin Hk]. eauto.
Qed.

(** Under distinct keys, any booking an action touches is the one whose
    room it updates. *)
Lemma touched_room db bid b :
  NoDup (map Booking.id (DB.bookings db)) ->
  In b (DB.bookings db) -> DB.key_is bid (Booking.id b) = true ->
  DB.select_room_id db bid = Some (Booking.room_id b).
Proof.
  intros ND Hin Hk. unfold DB.select_room_id.
  destruct (find _ (DB.bookings db)) as [b0 |] eqn:E.
  - apply find_some in E as [Hin0 Hk0]. cbn. do 2 f_equal.
    apply (NoDup_key_eq Booking.id (DB.bookings db)); trivial.
    apply key_is_iff in Hk, Hk0. congruence.
  - apply (find_none _ _ E) in Hin. cbn in Hin. congruence.
Qed.

Lemma singleton_of {A : Type} (l : list A) (x : A) :
  In x l -> (List.length l <= 1)%nat -> l = [x].
Proof.
  destruct l as [| a [| b l]]; cbn; try tauto; try lia.
  intros [-> | []] _. reflexivity.
Qed.

Lemma wf_set_statuses db bid bs rs :
  rs <> Room.Maintenance ->
  (rs = Room.Occupied <-> Booking.terminal bs = false) ->
  wf db -> wf (set_statuses db bid bs rs).
Proof.
  intros Hrs Hpair [H1 H2 H3 H4 H5 H6].
  constructor.
  - intros b'. rewrite set_statuses_bookings, set_statuses_room_ids.
    intros Hb'. apply in_map_iff in Hb' as (b & <- & Hb).
    specialize (H1 b Hb).
    destruct (DB.key_is bid (Booking.id b)); exact H1.
  - now rewrite set_statuses_booking_ids.
  - intros r'. rewrite set_statuses_rooms. intros Hr'.
    apply in_map_iff in Hr' as (r & <- & Hr).
    rewrite bookings_of_set_statuses.
    destruct (DB.key_eq _ (Room.id r)); cbn.
    + intros E. congruence.
    + intros E. now rewrite (H3 r Hr E).
  - intros r'. rewrite set_statuses_rooms. intros Hr'.
    apply in_map_iff in Hr' as (r & <- & Hr).
    unfold has_active.
    destruct (DB.key_eq _ (Room.id r)) eqn:Ek;
      cbn [Room.id Room.set_status Room.status];
      rewrite bookings_of_set_statuses, length_map; intros Hlen.
    + apply key_eq_iff in Ek.
      apply select_room_id_some in Ek as (b0 & Hb0 & Hk0 & Hr0).
      assert (bookings_of db (Room.id r) = [b0]) as ->.
      { apply singleton_of; trivial. unfold bookings_of.
        apply filter_In. split; trivial. now apply Z.eqb_eq. }
      cbn. rewrite Hk0. unfold Booking.active; cbn.
      rewrite orb_false_r, Hpair.
      destruct bs; cbn; intuition congruence.
    + rewrite map_fixed; [now apply H4 |].
      intros b Hb. unfold bookings_of in Hb.
      apply filter_In in Hb as [Hb Hrb]. apply Z.eqb_eq in Hrb.
      destruct (DB.key_is bid (Booking.id b)) eqn:Ekb; trivial.
      rewrite (touched_room db bid b H2 Hb Ekb), Hrb in Ek.
      cbn in Ek. rewrite Z.eqb_refl in Ek. discriminate.
  - intros r'. rewrite set_statuses_rooms. intros Hr'.
    apply in_map_iff in Hr' as (r & <- & Hr).
    specialize (H5 r Hr). destruct (DB.key_eq _ (Room.id r)); exact H5.
  - intros r'. rewrite set_statuses_rooms. intros Hr'.
    apply in_map_iff in Hr' as (r & <- & Hr).
    specialize (H6 r Hr). destruct (DB.key_eq _ (Room.id r)); exact H6.
Qed.

(** *** Inserting rows *)

Lemma room_violations_nil db number type price :
  DB.room_violations db number type price = [] <->
  Float.is_nan price = false /\ Float.nonneg price = true
  /\ existsb (String.eqb type) DB.room_types = true
  /\ existsb (fun r => String.eqb (Room.number r) number) (DB.rooms db)
     = false.
Proof.
  unfold DB.room_violations.
  destruct (Float.is_nan price), (Float.nonneg price),
    (existsb (String.eqb type) DB.room_types),
    (existsb _ (DB.rooms db)); cbn; intuition congruence.
Qed.

Lemma insert_room_inl db number type price status db' :
  DB.insert_room db number type price status = inl db' ->
  DB.room_violations db number type price = []
  /\ db' = DB.mk (DB.rooms db
                  ++ [Room.mk (DB.next_id (map Room.id (DB.rooms db)))
                        number type (DB.real price) status])
             (DB.guests db) (DB.bookings db).
Proof.
  unfold DB.insert_room.
  destruct (DB.room_violations db number type price);
    [intros [= <-]; auto | discriminate].
Qed.


(** No booking refers to the key of a room about to be inserted. *)
Lemma bookings_of_next db :
  wf db -> bookings_of db (DB.next_id (map Room.id (DB.rooms db))) = [].
Proof.
  intros W. unfold bookings_of. apply filter_nil. intros b Hb.
  apply Z.eqb_neq. intros E.
  apply (next_id_fresh (map Room.id (DB.rooms db))).
  rewrite <- E. now apply (wf_room_ref db W).
Qed.

Lemma wf_insert_room db number type price status db' :
  wf db -> number <> "" -> status <> Room.Occupied ->
  DB.insert_room db number type price status = inl db' -> wf db'.
Proof.
  intros W Hn Hs Hi. pose proof (bookings_of_next db W) as Hnext.
  apply insert_room_inl in Hi as [Hv ->].
  apply room_violations_nil in Hv as (_ & Hp & _ & _).
  destruct W as [H1 H2 H3 H4 H5 H6].
  constructor; unfold has_active, bookings_of in *; cbn [DB.rooms DB.bookings].
  - intros b Hb. rewrite map_app. apply in_or_app. left. auto.
  - trivial.
  - intros r Hr E. apply in_app_or in Hr as [Hr | [<- | []]]; auto.
  - intros r Hr. apply in_app_or in Hr as [Hr | [<- | []]]; auto.
    cbn [Room.id Room.status]. rewrite Hnext. cbn.
    intros _. split; [tauto | discriminate].
  - intros r Hr. apply in_app_or in Hr as [Hr | [<- | []]]; auto.
  - intros r Hr. apply in_app_or in Hr as [Hr | [<- | []]]; auto.
    cbn [Room.price_per_night]. split; [now apply nonneg_real |].
    apply real_real.
Qed.

Lemma wf_insert_guest db name phone email :
  wf db -> wf (DB.insert_guest db name phone email).
Proof. now apply wf_same. Qed.

Lemma reference_nil table column param keys :
  DB.reference table column param keys = [] ->
  exists k, DB.integer_of param = Some k /\ In k keys.
Proof.
  unfold DB.reference. destruct param as [s |]; [| discriminate].
  destruct (existsb _ keys) eqn:E; [| discriminate].
  intros _. apply existsb_exists in E as (k & Hk & E).
  apply key_is_iff in E. eauto.
Qed.

Lemma insert_booking_inl db room_id guest_id ci co total db' :
  DB.insert_booking db room_id guest_id ci co total = inl db' ->
  exists rid gid,
    DB.integer_of room_id = Some rid
    /\ In rid (map Room.id (DB.rooms db))
    /\ DB.integer_of guest_id = Some gid
    /\ In gid (map Guest.id (DB.guests db))
    /\ Float.is_nan total = false
    /\ db' = DB.mk (DB.rooms db) (DB.guests db)
               (DB.bookings db
                ++ [Booking.mk (DB.next_id (map Booking.id (DB.bookings db)))
                      rid gid ci co Booking.Booked (DB.real total)]).
Proof.
  unfold DB.insert_booking.
  destruct (DB.booking_violations db room_id guest_id total) eqn:Ev;
    [| discriminate].
  unfold DB.booking_violations in Ev.
  apply app_eq_nil in Ev as [Er Ev]. apply app_eq_nil in Ev as [Eg Et].
  apply reference_nil in Er as (rid & Hr & Hrin).
  apply reference_nil in Eg as (gid & Hg & Hgin).
  rewrite Hr, Hg. intros [= <-]. exists rid, gid.
  repeat split; trivial.
  destruct (Float.is_nan total); [discriminate | reflexivity].
Qed.


(** The two statements of a successful [POST /bookings]. *)
Lemma wf_book db room_id rid b :
  wf db ->
  DB.integer_of room_id = Some rid ->
  In rid (map Room.id (DB.rooms db)) ->
  Booking.id b = DB.next_id (map Booking.id (DB.bookings db)) ->
  Booking.room_id b = rid -> Booking.status b = Booking.Booked ->
  wf (DB.update_room_status
        (DB.mk (DB.rooms db) (DB.guests db) (DB.bookings db ++ [b]))
        Room.Occupied (DB.key_is room_id)).
Proof.
  intros [H1 H2 H3 H4 H5 H6] Hrid Hin Hid Hroom Hst.
  assert (Hof : forall x,
    bookings_of
      (DB.update_room_status
         (DB.mk (DB.rooms db) (DB.guests db) (DB.bookings db ++ [b]))
         Room.Occupied (DB.key_is room_id)) x
    = bookings_of db x ++ (if rid =? x then [b] else [])).
  { intros x. unfold bookings_of; cbn. rewrite filter_app; cbn.
    now rewrite Hroom. }
  constructor.
  - cbn. intros b' Hb'. rewrite map_map.
    rewrite (map_ext (fun r => Room.id
               (if DB.key_is room_id (Room.id r)
                then Room.set_status Room.Occupied r else r)) Room.id)
      by (intros r; destruct (DB.key_is room_id (Room.id r)); reflexivity).
    apply in_app_or in Hb' as [Hb' | [<- | []]]; [auto | now rewrite Hroom].
  - cbn. rewrite map_app; cbn. rewrite Hid. now apply NoDup_app_fresh.
  - intros r' Hr' E. cbn in Hr'.
    apply in_map_iff in Hr' as (r & <- & Hr).
    rewrite Hof.
    destruct (DB.key_is room_id (Room.id r)) eqn:Ek; [discriminate E |].
    rewrite (key_is_eqb _ _ _ Hrid) in Ek. rewrite Z.eqb_sym, Ek.
    rewrite app_nil_r. auto.
  - intros r' Hr'. cbn in Hr'.
    apply in_map_iff in Hr' as (r & <- & Hr).
    unfold has_active. rewrite Hof.
    destruct (DB.key_is room_id (Room.id r)) eqn:Ek;
      cbn [Room.id Room.set_status Room.status];
      rewrite (key_is_eqb _ _ _ Hrid) in Ek; rewrite Z.eqb_sym, Ek.
    + intros _. rewrite existsb_app; cbn.
      unfold Booking.active. rewrite Hst, orb_true_r. tauto.
    + rewrite app_nil_r. now apply H4.
  - intros r' Hr'. cbn in Hr'.
    apply in_map_iff in Hr' as (r & <- & Hr). specialize (H5 r Hr).
    destruct (DB.key_is room_id (Room.id r)); exact H5.
  - intros r' Hr'. cbn in Hr'.
    apply in_map_iff in Hr' as (r & <- & Hr). specialize (H6 r Hr).
    destruct (DB.key_is room_id (Room.id r)); exact H6.
Qed.

(** *** The handlers *)

Lemma valid_dates_iff check_in check_out :
  valid_dates check_in check_out = true <->
  exists ci co d_in d_out,
    check_in = Some ci /\ check_out = Some co
    /\ strptime ci = Some d_in /\ strptime co = Some d_out
    /\ Date.ltb d_in d_out = true.
Proof.
  unfold valid_dates. split.
  - destruct check_in as [ci |], check_out as [co |]; try discriminate.
    destruct (strptime ci) as [d_in |] eqn:E1; [| discriminate].
    destruct (strptime co) as [d_out |] eqn:E2; [| discriminate].
    intros H. exists ci, co, d_in, d_out. auto.
  - intros (ci & co & d_in & d_out & -> & -> & -> & -> & H). exact H.
Qed.

Lemma select_room_some db room_id row :
  DB.select_room db room_id = Some row ->
  In row (DB.rooms db) /\ DB.integer_of room_id = Some (Room.id row).
Proof.
  unfold DB.select_room. intros H. apply find_some in H as [Hin Hk].
  apply key_is_iff in Hk. auto.
Qed.

(** What a successful [POST /bookings] did. *)
Lemma create_booking_created req db db' :
  create_booking req db = (RedirectTo "bookings" (Some Booking_created), db') ->
  exists ci co d_in d_out row gid total,
    get (form req) "check_in" = Some ci
    /\ get (form req) "check_out" = Some co
    /\ strptime ci = Some d_in /\ strptime co = Some d_out
    /\ Date.ltb d_in d_out = true
    /\ DB.select_room db (get (form req) "room_id") = Some row
    /\ DB.integer_of (get (form req) "guest_id") = Some gid
    /\ In gid (map Guest.id (DB.guests db))
    /\ compute_total_amount (Room.price_per_night row) ci co = Some total
    /\ Float.is_nan total = false
    /\ db' = DB.update_room_status
               (DB.mk (DB.rooms db) (DB.guests db)
                  (DB.bookings db
                   ++ [Booking.mk
                         (DB.next_id (map Booking.id (DB.bookings db)))
                         (Room.id row) gid ci co Booking.Booked
                         (DB.real total)]))
               Room.Occupied (DB.key_is (get (form req) "room_id")).
Proof.
  unfold create_booking.
  destruct (valid_dates _ _) eqn:Ed; cbn [negb]; [| discriminate].
  apply valid_dates_iff in Ed
    as (ci & co & d_in & d_out & Eci & Eco & E1 & E2 & Hlt).
  rewrite Eci, Eco.
  destruct (DB.select_room db _) as [row |] eqn:Er; [| discriminate].
  destruct (compute_total_amount _ ci co) as [total |] eqn:Et;
    [| discriminate].
  destruct (DB.insert_booking _ _ _ _ _ _) as [db1 | cs] eqn:Ei;
    [| discriminate].
  intros [= <-].
  apply insert_booking_inl in Ei
    as (rid & gid & Hrid & _ & Hgid & Hgin & Hnan & ->).
  apply select_room_some in Er as Hrow. destruct Hrow as [_ Hrow].
  assert (rid = Room.id row) as -> by congruence.
  exists ci, co, d_in, d_out, row, gid, total. repeat split; trivial.
Qed.

(** Any other outcome of [POST /bookings] leaves the database as it was. *)
Lemma create_booking_unchanged req db :
  fst (create_booking req db) <> RedirectTo "bookings" (Some Booking_created) ->
  snd (create_booking req db) = db.
Proof.
  unfold create_booking.
  destruct (negb _); trivial.
  destruct (DB.select_room db _); trivial.
  destruct (compute_total_amount _ _ _); trivial.
  destruct (DB.insert_booking _ _ _ _ _ _); trivial.
  cbn. congruence.
Qed.

Lemma wf_create_booking req db :
  wf db -> wf (snd (create_booking req db)).
Proof.
  intros W.
  destruct (create_booking req db) as [resp db'] eqn:E.
  assert (resp = RedirectTo "bookings" (Some Booking_created)
          \/ resp <> RedirectTo "bookings" (Some Booking_created)) as [-> | Hn].
  { destruct resp as [ep [[] |] | | | |]; try (right; discriminate).
    destruct (String.eqb_spec ep "bookings");
      [left; congruence | right; congruence]. }
  - apply create_booking_created in E
      as (ci & co & d_in & d_out & row & gid & total & _ & _ & _ & _ & _
          & Er & _ & _ & _ & _ & ->).
    apply select_room_some in Er as [Hin Hrid].
    cbn [snd]. apply wf_book with (rid := Room.id row); trivial.
    now apply in_map.
  - pose proof (create_booking_unchanged req db) as U.
    rewrite E in U. cbn [fst snd] in *. now rewrite U.
Qed.

Lemma wf_bookings req db : wf db -> wf (snd (bookings req db)).
Proof.
  intros W. unfold bookings.
  destruct (truthy _ && truthy _).
  - destruct (equals _ "checkin");
      [apply wf_set_statuses; trivial; [discriminate | cbn; tauto] |].
    destruct (equals _ "checkout");
      [apply wf_set_statuses; trivial;
       [discriminate | cbn; split; discriminate] |].
    destruct (equals _ "cancel");
      [apply wf_set_statuses; trivial;
       [discriminate | cbn; split; discriminate] |].
    exact W.
  - destruct (method req); [exact W | now apply wf_create_booking].
Qed.

Lemma wf_rooms req db : wf db -> wf (snd (rooms req db)).
Proof.
  intros W. unfold rooms.
  destruct (method req); [exact W |].
  destruct (String.eqb_spec (strip (get_default (form req) "number" "")) "")
    as [E | E]; [exact W |].
  destruct (float_or_0 _) as [p |]; [| exact W].
  destruct (DB.insert_room _ _ _ _ _) as [db' | cs] eqn:Ei; [| exact W].
  cbn. eapply wf_insert_room; eauto. discriminate.
Qed.

Lemma wf_guests req db : wf db -> wf (snd (guests req db)).
Proof.
  intros W. unfold guests.
  destruct (method req); [exact W |].
  destruct (String.eqb _ ""); [exact W |].
  now apply wf_insert_guest.
Qed.

Lemma wf_insert_rooms rows :
  Forall (fun '(number, type, price, status) =>
            number <> "" /\ status <> Room.Occupied) rows ->
  forall db db', wf db -> insert_rooms db rows = inl db' -> wf db'.
Proof.
  induction 1 as [| [[[number type] price] status] rows [Hn Hs] _ IH];
    cbn; intros db db' W.
  - now intros [= <-].
  - destruct (DB.insert_room _ _ _ _ _) as [db1 | cs] eqn:Ei;
      [| discriminate].
    apply IH. eapply wf_insert_room; eauto.
Qed.

Lemma wf_insert_guests rows db : wf db -> wf (insert_guests db rows).
Proof.
  unfold insert_guests. revert db.
  induction rows as [| [[name phone] email] rows IH]; cbn; intros db W;
    [exact W |].
  apply IH. now apply wf_insert_guest.
Qed.

Lemma wf_seed req db : wf db -> wf (snd (seed req db)).
Proof.
  intros W. unfold seed.
  destruct (method req); [| exact W].
  destruct (if _ =? 0 then insert_rooms db seed_rooms else inl db)
    as [db1 | cs] eqn:E; [| exact W].
  assert (wf db1) as W1.
  { destruct (_ =? 0); [| now injection E as <-].
    eapply wf_insert_rooms; [| exact W | exact E].
    repeat constructor; discriminate. }
  cbn [snd].
  destruct (Z.of_nat (List.length (DB.guests db1)) =? 0);
    [now apply wf_insert_guests | exact W1].
Qed.

Lemma wf_app rt req db : wf db -> wf (snd (app rt req db)).
Proof.
  intros W. destruct rt; cbn;
    auto using wf_rooms, wf_guests, wf_bookings, wf_seed;
    unfold read_only; destruct (method req); exact W.
Qed.

Theorem reachable_wf db : reachable db -> wf db.
Proof.
  induction 1; [apply wf_empty | now apply wf_app].
Qed.

End Invariant.

(** ** The booking lifecycle *)

Section Lifecycle.
Context {L : Library}.

Lemma is_action_bookings req db :
  is_action req = true ->
  bookings req db =
    let action := get (args req) "action" in
    let bid := get (args req) "id" in
    if equals action "checkin" then
      (RedirectTo "bookings" (Some Guest_checked_in),
       set_statuses db bid Booking.Checked_In Room.Occupied)
    else if equals action "checkout" then
      (RedirectTo "bookings" (Some Guest_checked_out),
       set_statuses db bid Booking.Checked_Out Room.Available)
    else if equals action "cancel" then
      (RedirectTo "bookings" (Some Booking_cancelled),
       set_statuses db bid Booking.Cancelled Room.Available)
    else (RedirectTo "bookings" None, db).
Proof.
  unfold is_action, bookings. now intros ->.
Qed.

Lemma not_action_post req db :
  is_action req = false -> method req = POST ->
  bookings req db = create_booking req db.
Proof.
  unfold is_action, bookings. now intros -> ->.
Qed.

Lemma not_action_get req db :
  is_action req = false -> method req = GET ->
  bookings req db = (Page "Bookings" None, db).
Proof.
  unfold is_action, bookings. now intros -> ->.
Qed.

Lemma truthy_some s : s <> "" -> truthy (Some s) = true.
Proof.
  intros H. cbn. now destruct (String.eqb_spec s "").
Qed.

Lemma transition_args bid a :
  get (args (transition bid a)) "action" = Some a
  /\ get (args (transition bid a)) "id" = Some bid.
Proof. split; reflexivity. Qed.

Lemma transition_is_action bid a :
  bid <> "" -> a <> "" -> is_action (transition bid a) = true.
Proof.
  intros Hb Ha. unfold is_action.
  destruct (transition_args bid a) as [-> ->].
  now rewrite !truthy_some.
Qed.

(** The action branch by the name of the action. *)
Lemma bookings_action req db a bid bs rs :
  get (args req) "action" = Some a -> get (args req) "id" = Some bid ->
  bid <> "" ->
  In (a, bs, rs)
     [ ("checkin", Booking.Checked_In, Room.Occupied);
       ("checkout", Booking.Checked_Out, Room.Available);
       ("cancel", Booking.Cancelled, Room.Available) ] ->
  snd (bookings req db) = set_statuses db (Some bid) bs rs.
Proof.
  intros Ha Hb Hne Hin.
  rewrite is_action_bookings.
  - rewrite Ha, Hb.
    destruct Hin as [[= <- <- <-] | [[= <- <- <-] | [[= <- <- <-] | []]]];
      reflexivity.
  - unfold is_action. rewrite Ha, Hb, (truthy_some bid Hne).
    destruct Hin as [[= <- <- <-] | [[= <- <- <-] | [[= <- <- <-] | []]]];
      reflexivity.
Qed.


(** C2, as the code has it: a transition on a booking that is Checked-Out
    or Cancelled is applied like any other; the status stays as it was
    only when the action sets the status the booking already has. *)
Theorem terminal_status_overwritten req db a bid n b bs rs :
  get (args req) "action" = Some a -> get (args req) "id" = Some bid ->
  bid <> "" -> sql_integer bid = Some n ->
  booking_at db n = Some b ->
  Booking.terminal (Booking.status b) = true ->
  In (a, bs, rs)
     [ ("checkin", Booking.Checked_In, Room.Occupied);
       ("checkout", Booking.Checked_Out, Room.Available);
       ("cancel", Booking.Cancelled, Room.Available) ] ->
  exists b',
    booking_at (snd (bookings req db)) n = Some b'
    /\ Booking.status b' = bs
    /\ (Booking.status b' = Booking.status b <->
        (a = "checkout" /\ Booking.status b = Booking.Checked_Out)
        \/ (a = "cancel" /\ Booking.status b = Booking.Cancelled)).
Proof.
  intros Ha Hb Hne Hn Hat Hterm Hin.
  exists (Booking.set_status bs b).
  rewrite (bookings_action req db a bid bs rs Ha Hb Hne Hin).
  split; [now apply booking_at_set_statuses |].
  split; [reflexivity |]. cbn [Booking.status Booking.set_status].
  destruct Hin as [[= <- <- <-] | [[= <- <- <-] | [[= <- <- <-] | []]]];
    destruct (Booking.status b); try discriminate Hterm;
    intuition congruence.
Qed.

(** C5, as the code has it: [checkin] on a key that no booking has does
    not fail: the handler reports the check-in, and the database is
    unchanged. *)
Theorem transition_missing_booking db bid :
  (forall b, In b (DB.bookings db) ->
             DB.key_is (Some bid) (Booking.id b) = false) ->
  snd (bookings (transition bid "checkin") db) = db
  /\ fails (fst (bookings (transition bid "checkin") db)) = false
  /\ (bid <> "" ->
      fst (bookings (transition bid "checkin") db)
      = RedirectTo "bookings" (Some Guest_checked_in)).
Proof.
  intros H.
  destruct (String.eqb_spec bid "") as [-> | Hne].
  - rewrite not_action_get by reflexivity. cbn. intuition congruence.
  - rewrite is_action_bookings
      by (apply transition_is_action; [exact Hne | discriminate]).
    destruct (transition_args bid "checkin") as [-> ->].
    cbn -[set_statuses]. rewrite set_statuses_missing by exact H. auto.
Qed.

(** C10: an action other than [checkin], [checkout] and [cancel] changes
    no row, whatever the booking key. *)
Theorem unknown_action_changes_nothing req db a :
  get (args req) "action" = Some a ->
  a <> "checkin" -> a <> "checkout" -> a <> "cancel" ->
  method req = GET \/ is_action req = true ->
  snd (bookings req db) = db.
Proof.
  intros Ha H1 H2 H3 Hm.
  destruct (is_action req) eqn:E.
  - rewrite is_action_bookings by exact E.
    rewrite Ha; cbn.
    destruct (String.eqb_spec a "checkin"); [contradiction |].
    destruct (String.eqb_spec a "checkout"); [contradiction |].
    destruct (String.eqb_spec a "cancel"); [contradiction |].
    reflexivity.
  - destruct Hm as [Hm | Hm]; [| discriminate].
    now rewrite not_action_get.
Qed.

End Lifecycle.

(** ** Creating bookings *)

Section Creation.
Context {L : Library}.

(** C7: a booking request whose dates do not both parse with check-out
    strictly after check-in fails with a validation error and leaves the
    database as it was. *)
Theorem create_booking_invalid_dates req db :
  is_action req = false -> method req = POST ->
  ~ (exists ci co d_in d_out,
       get (form req) "check_in" = Some ci
       /\ get (form req) "check_out" = Some co
       /\ strptime ci = Some d_in /\ strptime co = Some d_out
       /\ Date.ltb d_in d_out = true) ->
  fst (bookings req db) = RedirectTo "bookings" (Some Invalid_dates)
  /\ fails_with (fst (bookings req db)) ValidationError = true
  /\ snd (bookings req db) = db.
Proof.
  intros Ha Hm Hd. rewrite not_action_post by assumption.
  unfold create_booking.
  destruct (valid_dates _ _) eqn:E.
  - apply valid_dates_iff in E. contradiction.
  - cbn. auto.
Qed.

(** C8: after a successful booking request the new booking is Booked and
    the room it refers to is Occupied. *)
Theorem create_booking_statuses req db db' :
  is_action req = false -> method req = POST ->
  bookings req db = (RedirectTo "bookings" (Some Booking_created), db') ->
  exists b row,
    DB.select_room db (get (form req) "room_id") = Some row
    /\ DB.bookings db' = DB.bookings db ++ [b]
    /\ Booking.room_id b = Room.id row
    /\ Booking.status b = Booking.Booked
    /\ (exists r, In r (DB.rooms db') /\ Room.id r = Room.id row)
    /\ (forall r, In r (DB.rooms db') -> Room.id r = Room.id row ->
                  Room.status r = Room.Occupied).
Proof.
  intros Ha Hm E. rewrite not_action_post in E by assumption.
  apply create_booking_created in E
    as (ci & co & d_in & d_out & row & gid & total & _ & _ & _ & _ & _
        & Er & _ & _ & _ & _ & ->).
  apply select_room_some in Er as Hrow. destruct Hrow as [Hin Hrid].
  eexists _, row. split; [exact Er |]. split; [reflexivity |].
  split; [reflexivity |]. split; [reflexivity |].
  cbn [DB.update_room_status DB.rooms]. split.
  - exists (Room.set_status Room.Occupied row). split; [| reflexivity].
    apply in_map_iff. exists row. split; trivial.
    now rewrite (proj2 (key_is_iff _ _) Hrid).
  - intros r' Hr' Hid. apply in_map_iff in Hr' as (r & <- & Hr).
    destruct (DB.key_is _ (Room.id r)) eqn:Ek; [reflexivity |].
    cbn in Hid. rewrite <- Hid in Hrid.
    apply key_is_iff in Hrid. congruence.
Qed.


End Creation.

(** ** The total amount *)

Section Total.
Context {L : Library}.


Lemma compute_total_amount_sign_clear price ci co total :
  sign_clear price ->
  compute_total_amount price ci co = Some total ->
  sign_clear total.
Proof.
  unfold compute_total_amount. intros Hp.
  destruct (strptime ci) as [d1 |]; [| discriminate].
  destruct (strptime co) as [d2 |]; [| discriminate].
  intros [= <-]. apply round_sign_clear, mul_sign_clear; trivial.
  apply of_int_sign_clear. lia.
Qed.

Lemma compute_total_amount_nights price ci co d_in d_out :
  strptime ci = Some d_in -> strptime co = Some d_out ->
  Date.ltb d_in d_out = true ->
  compute_total_amount price ci co
  = Some (Float.round
            (Float.mul price (Float.of_int (Date.days_between d_out d_in)))
            2).
Proof.
  intros E1 E2 Hlt. unfold compute_total_amount. rewrite E1, E2.
  apply ltb_days_between in Hlt.
  now rewrite Z.max_l by lia.
Qed.


End Total.

(** ** Creating rooms *)

Section RoomCreation.
Context {L : Library}.






End RoomCreation.

(** ** Room status and bookings *)

Section Occupancy.
Context {L : Library}.

Lemma reachable_run calls db : reachable db -> reachable (run calls db).
Proof.
  revert db. induction calls as [| [rt req] calls IH]; cbn; intros db R;
    [exact R |].
  apply IH. now constructor.
Qed.



End Occupancy.

(** ** The scenario of the specification, run *)

Example scenario_hotel :
  hotel = DB.mk [hotel_room] [Guest.mk 1 "A" "" ""] [hotel_booking].
Proof. reflexivity. Qed.

Lemma hotel_reachable : reachable (L := Text.library) hotel.
Proof. apply reachable_run, reachable_init. Qed.

Lemma hotel_twice_reachable : reachable (L := Text.library) hotel_twice.
Proof. apply reachable_run, hotel_reachable. Qed.

Lemma hotel_seeded_booked_reachable :
  reachable (L := Text.library) hotel_seeded_booked.
Proof. do 2 apply reachable_run. apply reachable_init. Qed.

(** [round(0.125, 2) == 0.12] (a tie, to even), [round(0.375, 2) == 0.38],
    [round(2.675, 2) == 2.67] (the float is below the tie) and
    [round(-0.001, 2) == -0.0]. *)
Example round_values :
  option_map (fun x => Float.round x 2) (Text.py_float "0.125")
  = Text.py_float "0.12"
  /\ option_map (fun x => Float.round x 2) (Text.py_float "0.375")
     = Text.py_float "0.38"
  /\ option_map (fun x => Float.round x 2) (Text.py_float "2.675")
     = Text.py_float "2.67"
  /\ option_map (fun x => Float.round x 2) (Text.py_float "-0.001")
     = Some (S754_zero true).
Proof. repeat split. Qed.

(** A second room with the same number is refused. *)
Example duplicate_room_refused :
  rooms (L := Text.library) (createRoom "101" "Double" "2000") hotel
  = (Page "Rooms" (Some (Error (IntegrityError [Unique "rooms" "number"]))),
     hotel).
Proof. reflexivity. Qed.

(** A booking request for the room under maintenance occupies it. *)
Example maintenance_room_booked :
  nth_error (DB.rooms hotel_seeded) 2 = Some room_201
  /\ nth_error
       (DB.rooms
          (snd (bookings (L := Text.library)
                  (createBooking "3" "1" "2024-01-01" "2024-01-03")
                  hotel_seeded))) 2
     = Some (Room.set_status Room.Occupied room_201).
Proof. split; reflexivity. Qed.



(** C2 at the checked-out booking of [hotel_checked_out]. *)
Lemma terminal_status_overwritten_witness :
  exists b',
    booking_at
      (snd (bookings (L := Text.library) (transition "1" "checkin")
              hotel_checked_out)) 1 = Some b'
    /\ Booking.status b' = Booking.Checked_In
    /\ (Booking.status b' = Booking.Checked_Out <->
        ("checkin" = "checkout" /\ Booking.Checked_Out = Booking.Checked_Out)
        \/ ("checkin" = "cancel" /\ Booking.Checked_Out = Booking.Cancelled)).
Proof.
  apply (terminal_status_overwritten (L := Text.library) (transition "1" "checkin")
           hotel_checked_out "checkin" "1" 1
           (Booking.set_status Booking.Checked_Out hotel_booking)
           Booking.Checked_In Room.Occupied);
    try reflexivity.
  - discriminate.
  - left. reflexivity.
Defined.

(** The claim C2 fails: the booking of [hotel_checked_out] is Checked-Out,
    and a check-in on it makes it Checked-In. *)
Lemma terminal_status_counterexample :
  option_map Booking.status (booking_at hotel_checked_out 1)
  = Some Booking.Checked_Out
  /\ option_map Booking.status
       (booking_at
          (snd (bookings (L := Text.library) (transition "1" "checkin")
                  hotel_checked_out)) 1)
     = Some Booking.Checked_In.
Proof. split; reflexivity. Qed.



(** C5 at a key that [hotel] does not have. *)
Lemma transition_missing_booking_witness :
  snd (bookings (L := Text.library) (transition "99" "checkin") hotel) = hotel
  /\ fails (fst (bookings (L := Text.library) (transition "99" "checkin") hotel))
     = false
  /\ ("99" <> "" ->
      fst (bookings (L := Text.library) (transition "99" "checkin") hotel)
      = RedirectTo "bookings" (Some Guest_checked_in)).
Proof.
  apply (transition_missing_booking (L := Text.library) hotel "99").
  intros b Hb. vm_compute in Hb. destruct Hb as [<- | []]. reflexivity.
Defined.

(** The claim C5 fails: a check-in on a key that [hotel] does not have is
    reported as done, not as a failure. *)
Lemma transition_missing_booking_counterexample :
  booking_at hotel 99 = None
  /\ fst (bookings (L := Text.library) (transition "99" "checkin") hotel)
     = RedirectTo "bookings" (Some Guest_checked_in)
  /\ fails_with
       (fst (bookings (L := Text.library) (transition "99" "checkin") hotel))
       NotFoundError = false.
Proof. repeat split. Qed.



(** C7 at a request with check-out before check-in. *)
Lemma create_booking_invalid_dates_witness :
  fst (bookings (L := Text.library)
         (createBooking "1" "1" "2024-01-03" "2024-01-01") hotel)
  = RedirectTo "bookings" (Some Invalid_dates)
  /\ fails_with
       (fst (bookings (L := Text.library)
               (createBooking "1" "1" "2024-01-03" "2024-01-01") hotel))
       ValidationError = true
  /\ snd (bookings (L := Text.library)
            (createBooking "1" "1" "2024-01-03" "2024-01-01") hotel)
     = hotel.
Proof.
  apply (create_booking_invalid_dates (L := Text.library)
           (createBooking "1" "1" "2024-01-03" "2024-01-01") hotel);
    try reflexivity.
  intros (ci & co & d_in & d_out & Hci & Hco & E1 & E2 & Hlt).
  vm_compute in Hci, Hco. injection Hci as <-. injection Hco as <-.
  vm_compute in E1, E2. injection E1 as <-. injection E2 as <-.
  vm_compute in Hlt. discriminate Hlt.
Defined.

(** C8 at a second booking of room 101. *)
Lemma create_booking_statuses_witness :
  exists b row,
    DB.select_room (L := Text.library) hotel (Some "1") = Some row
    /\ DB.bookings
         (snd (bookings (L := Text.library)
                 (createBooking "1" "1" "2024-02-01" "2024-02-03") hotel))
       = DB.bookings hotel ++ [b]
    /\ Booking.room_id b = Room.id row
    /\ Booking.status b = Booking.Booked
    /\ (exists r,
          In r (DB.rooms
                  (snd (bookings (L := Text.library)
                          (createBooking "1" "1" "2024-02-01" "2024-02-03")
                          hotel)))
          /\ Room.id r = Room.id row)
    /\ (forall r,
          In r (DB.rooms
                  (snd (bookings (L := Text.library)
                          (createBooking "1" "1" "2024-02-01" "2024-02-03")
                          hotel))) ->
          Room.id r = Room.id row -> Room.status r = Room.Occupied).
Proof.
  apply (create_booking_statuses (L := Text.library)
           (createBooking "1" "1" "2024-02-01" "2024-02-03") hotel);
    vm_compute; reflexivity.
Defined.


(** C10 at an action the handler does not know. *)
Lemma unknown_action_changes_nothing_witness :
  snd (bookings (L := Text.library) (transition "1" "refund") hotel) = hotel.
Proof.
  apply (unknown_action_changes_nothing (L := Text.library)
           (transition "1" "refund") hotel "refund");
    try discriminate.
  - reflexivity.
  - left. reflexivity.
Defined.


(** ** Keys in the order of insertion *)

Section Keys.

Lemma fold_max_from (a : Z) (l : list Z) :
  0 <= a -> fold_right Z.max a l = Z.max a (fold_right Z.max 0 l).
Proof.
  intros Ha. induction l as [| x l IH]; cbn [fold_right]; lia.
Qed.

Lemma fold_max_seq (n : nat) :
  fold_right Z.max 0 (map Z.of_nat (seq 1 n)) = Z.of_nat n.
Proof.
  induction n as [| n IH]; [reflexivity |].
  rewrite seq_S, map_app, fold_right_app. cbn [map fold_right].
  rewrite fold_max_from by lia. rewrite IH. lia.
Qed.

Lemma keys_from_1_next (ids : list Z) :
  keys_from_1 ids -> DB.next_id ids = Z.of_nat (S (List.length ids)).
Proof.
  unfold keys_from_1, DB.next_id. intros H.
  rewrite H at 1. rewrite fold_max_seq. lia.
Qed.

Lemma keys_from_1_app (ids : list Z) :
  keys_from_1 ids -> keys_from_1 (ids ++ [DB.next_id ids]).
Proof.
  intros H. rewrite (keys_from_1_next ids H). unfold keys_from_1 in *.
  rewrite length_app, Nat.add_comm. cbn [List.length Nat.add].
  rewrite seq_S, map_app. cbn [map]. now rewrite <- H.
Qed.

Lemma seq_increasing (s n : nat) :
  StronglySorted Z.lt (map Z.of_nat (seq s n)).
Proof.
  revert s. induction n as [| n IH]; intros s; cbn; constructor; [apply IH |].
  apply Forall_forall. intros x Hx.
  apply in_map_iff in Hx as (k & <- & Hk). apply in_seq in Hk. lia.
Qed.

Lemma keys_from_1_increasing (ids : list Z) :
  keys_from_1 ids -> StronglySorted Z.lt ids.
Proof. intros ->. apply seq_increasing. Qed.

Lemma increasing_NoDup (ids : list Z) : StronglySorted Z.lt ids -> NoDup ids.
Proof.
  induction 1 as [| a l _ IH Ha]; constructor; trivial.
  intros Hin. rewrite Forall_forall in Ha. specialize (Ha a Hin). lia.
Qed.

Lemma keys_from_1_NoDup (ids : list Z) : keys_from_1 ids -> NoDup ids.
Proof. intros H. now apply increasing_NoDup, keys_from_1_increasing. Qed.

Lemma find_app_some {A : Type} (p : A -> bool) (l l' : list A) (x : A) :
  find p l = Some x -> find p (l ++ l') = Some x.
Proof.
  induction l as [| a l IH]; cbn; [discriminate |].
  destruct (p a); auto.
Qed.

(** Under distinct keys, the row found by its key is the row. *)
Lemma room_at_in db r :
  NoDup (map Room.id (DB.rooms db)) -> In r (DB.rooms db) ->
  room_at db (Room.id r) = Some r.
Proof.
  intros ND Hr. unfold room_at.
  destruct (find _ (DB.rooms db)) as [r' |] eqn:E.
  - apply find_some in E as [Hr' E]. apply Z.eqb_eq in E. f_equal.
    now apply (NoDup_key_eq Room.id (DB.rooms db)).
  - apply (find_none _ _ E) in Hr. rewrite Z.eqb_refl in Hr. discriminate.
Qed.

Lemma guest_at_some db gid :
  In gid (map Guest.id (DB.guests db)) -> exists g, guest_at db gid = Some g.
Proof.
  intros H. apply in_map_iff in H as (g & <- & Hg). unfold guest_at.
  destruct (find _ (DB.guests db)) as [g' |] eqn:E; [eauto |].
  apply (find_none _ _ E) in Hg. rewrite Z.eqb_refl in Hg. discriminate.
Qed.

End Keys.

(** ** Every reachable database satisfies the schema *)

Section Schema.
Context {L : Library}.

Lemma schema_empty : schema_ok DB.empty.
Proof.
  constructor; cbn; try reflexivity; try tauto. constructor.
Qed.

(** The total of a stay reads the price of the room only. *)
Lemma total_of_stay_same db db' b :
  (forall r, room_at db (Booking.room_id b) = Some r ->
     exists r', room_at db' (Booking.room_id b) = Some r'
                /\ Room.price_per_night r' = Room.price_per_night r) ->
  total_of_stay db b -> total_of_stay db' b.
Proof.
  intros H (r & d_in & d_out & Hr & E1 & E2 & Hlt & Ht).
  destruct (H r Hr) as (r' & Hr' & Hp).
  exists r', d_in, d_out. rewrite Hp. auto.
Qed.

Lemma room_at_set_statuses_price db bid bs rs rid r :
  room_at db rid = Some r ->
  exists r', room_at (set_statuses db bid bs rs) rid = Some r'
             /\ Room.price_per_night r' = Room.price_per_night r.
Proof.
  intros Hr. unfold room_at in *. rewrite set_statuses_rooms, find_map.
  - rewrite Hr. cbn. eexists. split; [reflexivity |].
    destruct (DB.key_eq _ (Room.id r)); reflexivity.
  - intros x. destruct (DB.key_eq _ (Room.id x)); reflexivity.
Qed.

Lemma schema_set_statuses db bid bs rs :
  schema_ok db -> schema_ok (set_statuses db bid bs rs).
Proof.
  intros [H1 H2 H3 H4 H5 H6 H7 H8]. constructor.
  - now rewrite set_statuses_room_ids.
  - exact H2.
  - now rewrite set_statuses_booking_ids.
  - rewrite set_statuses_rooms, map_map.
    rewrite (map_ext _ Room.number); trivial.
    intros r. destruct (DB.key_eq _ (Room.id r)); reflexivity.
  - intros r'. rewrite set_statuses_rooms. intros Hr'.
    apply in_map_iff in Hr' as (r & <- & Hr). specialize (H5 r Hr).
    destruct (DB.key_eq _ (Room.id r)); exact H5.
  - exact H6.
  - intros b'. rewrite set_statuses_bookings. intros Hb'.
    apply in_map_iff in Hb' as (b & <- & Hb). specialize (H7 b Hb).
    destruct (DB.key_is bid (Booking.id b)); exact H7.
  - intros b'. rewrite set_statuses_bookings. intros Hb'.
    apply in_map_iff in Hb' as (b & <- & Hb).
    destruct (H8 b Hb) as [Ht Hn].
    assert (total_of_stay (set_statuses db bid bs rs) b) as Ht'.
    { revert Ht. apply total_of_stay_same. intros r.
      apply room_at_set_statuses_price. }
    destruct (DB.key_is bid (Booking.id b)); split; trivial.
Qed.

Lemma schema_insert_room db number type price status db' :
  schema_ok db ->
  DB.insert_room db number type price status = inl db' -> schema_ok db'.
Proof.
  intros [H1 H2 H3 H4 H5 H6 H7 H8] Hi.
  apply insert_room_inl in Hi as [Hv ->].
  apply room_violations_nil in Hv as (_ & _ & Ht & Hn).
  constructor; cbn [DB.rooms DB.guests DB.bookings]; trivial.
  - rewrite map_app. cbn [map Room.id]. now apply keys_from_1_app.
  - rewrite map_app. cbn [map Room.number]. apply NoDup_app; trivial.
    + repeat constructor. cbn; tauto.
    + intros x Hx [<- | []]. apply in_map_iff in Hx as (r & E & Hr).
      assert (existsb (fun r => String.eqb (Room.number r) number)
                (DB.rooms db) = true) as Hex.
      { apply existsb_exists. exists r. split; trivial.
        now apply String.eqb_eq. }
      congruence.
  - intros r Hr. apply in_app_or in Hr as [Hr | [<- | []]]; auto.
    cbn [Room.type]. apply existsb_exists in Ht as (x & Hx & E).
    apply String.eqb_eq in E. now subst.
  - intros b Hb. destruct (H8 b Hb) as [Ht' Hnan]. split; trivial.
    revert Ht'. apply total_of_stay_same. intros r Hr.
    exists r. split; trivial. unfold room_at in *. cbn [DB.rooms].
    now apply find_app_some.
Qed.

Lemma schema_insert_guest db name phone email :
  name <> "" -> schema_ok db ->
  schema_ok (DB.insert_guest db name phone email).
Proof.
  intros Hn [H1 H2 H3 H4 H5 H6 H7 H8].
  constructor; cbn [DB.insert_guest DB.rooms DB.guests DB.bookings]; trivial.
  - rewrite map_app. cbn [map Guest.id]. now apply keys_from_1_app.
  - intros g Hg. apply in_app_or in Hg as [Hg | [<- | []]]; auto.
  - intros b Hb. rewrite map_app. apply in_or_app. left. auto.
Qed.

Lemma room_at_update_price db s p rid r :
  room_at db rid = Some r ->
  exists r', room_at (DB.update_room_status db s p) rid = Some r'
             /\ Room.price_per_night r' = Room.price_per_night r.
Proof.
  intros Hr. unfold room_at in *. cbn [DB.update_room_status DB.rooms].
  rewrite find_map.
  - rewrite Hr. cbn. eexists. split; [reflexivity |].
    destruct (p (Room.id r)); reflexivity.
  - intros x. destruct (p (Room.id x)); reflexivity.
Qed.

(** The two statements of a successful [POST /bookings]. *)
Lemma schema_book db room_id row gid ci co d_in d_out total :
  wf db -> schema_ok db ->
  In row (DB.rooms db) -> In gid (map Guest.id (DB.guests db)) ->
  strptime ci = Some d_in -> strptime co = Some d_out ->
  Date.ltb d_in d_out = true ->
  compute_total_amount (Room.price_per_night row) ci co = Some total ->
  Float.is_nan total = false ->
  schema_ok
    (DB.update_room_status
       (DB.mk (DB.rooms db) (DB.guests db)
          (DB.bookings db
           ++ [Booking.mk (DB.next_id (map Booking.id (DB.bookings db)))
                 (Room.id row) gid ci co Booking.Booked (DB.real total)]))
       Room.Occupied (DB.key_is room_id)).
Proof.
  intros W [H1 H2 H3 H4 H5 H6 H7 H8] Hrow Hgid E1 E2 Hlt Et Hnan.
  set (b := Booking.mk _ (Room.id row) gid ci co Booking.Booked _).
  set (db1 := DB.mk (DB.rooms db) (DB.guests db) (DB.bookings db ++ [b])).
  assert (Hprice : forall rid r, room_at db rid = Some r ->
            exists r', room_at (DB.update_room_status db1 Room.Occupied
                                  (DB.key_is room_id)) rid = Some r'
                       /\ Room.price_per_night r' = Room.price_per_night r).
  { intros rid r Hr. now apply (room_at_update_price db1). }
  destruct (wf_price db W row Hrow) as [Hnn Hreal].
  assert (DB.real total = total) as Htot.
  { apply real_sign_clear.
    eapply compute_total_amount_sign_clear; [| exact Et].
    now apply stored_price_sign_clear. }
  constructor; cbn [DB.update_room_status DB.rooms DB.guests DB.bookings db1].
  - rewrite map_map. rewrite (map_ext _ Room.id); trivial.
    intros r. destruct (DB.key_is room_id (Room.id r)); reflexivity.
  - exact H2.
  - rewrite map_app. cbn [map]. now apply keys_from_1_app.
  - rewrite map_map. rewrite (map_ext _ Room.number); trivial.
    intros r. destruct (DB.key_is room_id (Room.id r)); reflexivity.
  - intros r' Hr'. apply in_map_iff in Hr' as (r & <- & Hr).
    specialize (H5 r Hr). destruct (DB.key_is room_id (Room.id r)); exact H5.
  - exact H6.
  - intros b' Hb'. apply in_app_or in Hb' as [Hb' | [<- | []]]; auto.
  - intros b' Hb'. apply in_app_or in Hb' as [Hb' | [<- | []]].
    + destruct (H8 b' Hb') as [Ht Hn]. split; trivial.
      revert Ht. apply total_of_stay_same. intros r. apply Hprice.
    + split.
      * pose proof (room_at_in db row (keys_from_1_NoDup _ H1) Hrow) as Hat.
        destruct (Hprice _ _ Hat) as (r' & Hr' & Hp).
        exists r', d_in, d_out. unfold b; cbn.
        rewrite Hp, Htot.
        rewrite (compute_total_amount_nights _ _ _ _ _ E1 E2 Hlt) in Et.
        repeat split; trivial. congruence.
      * unfold b; cbn. now rewrite Htot.
Qed.

Lemma schema_create_booking req db :
  wf db -> schema_ok db -> schema_ok (snd (create_booking req db)).
Proof.
  intros W S.
  destruct (create_booking req db) as [resp db'] eqn:E.
  assert (resp = RedirectTo "bookings" (Some Booking_created)
          \/ resp <> RedirectTo "bookings" (Some Booking_created))
    as [-> | Hn].
  { destruct resp as [ep [[] |] | | | |]; try (right; discriminate).
    destruct (String.eqb_spec ep "bookings");
      [left; congruence | right; congruence]. }
  - apply create_booking_created in E
      as (ci & co & d_in & d_out & row & gid & total & _ & _ & E1 & E2 & Hlt
          & Er & _ & Hgid & Et & Hnan & ->).
    apply select_room_some in Er as [Hin _].
    cbn [snd]. eapply schema_book; eauto.
  - pose proof (create_booking_unchanged req db) as U.
    rewrite E in U. cbn [fst snd] in *. now rewrite U.
Qed.

Lemma schema_bookings req db :
  wf db -> schema_ok db -> schema_ok (snd (bookings req db)).
Proof.
  intros W S. unfold bookings.
  destruct (truthy _ && truthy _).
  - destruct (equals _ "checkin"); [now apply schema_set_statuses |].
    destruct (equals _ "checkout"); [now apply schema_set_statuses |].
    destruct (equals _ "cancel"); [now apply schema_set_statuses |].
    exact S.
  - destruct (method req); [exact S | now apply schema_create_booking].
Qed.

Lemma schema_rooms req db : schema_ok db -> schema_ok (snd (rooms req db)).
Proof.
  intros S. unfold rooms.
  destruct (method req); [exact S |].
  destruct (String.eqb _ ""); [exact S |].
  destruct (float_or_0 _) as [p |]; [| exact S].
  destruct (DB.insert_room _ _ _ _ _) as [db' | cs] eqn:Ei; [| exact S].
  cbn. eapply schema_insert_room; eauto.
Qed.

Lemma schema_guests req db : schema_ok db -> schema_ok (snd (guests req db)).
Proof.
  intros S. unfold guests.
  destruct (method req); [exact S |].
  destruct (String.eqb_spec (strip (get_default (form req) "name" "")) "");
    [exact S |].
  now apply schema_insert_guest.
Qed.

Lemma schema_insert_rooms rows db db' :
  schema_ok db -> insert_rooms db rows = inl db' -> schema_ok db'.
Proof.
  revert db. induction rows as [| [[[number type] price] status] rows IH];
    cbn; intros db S.
  - now intros [= <-].
  - destruct (DB.insert_room _ _ _ _ _) as [db1 | cs] eqn:Ei;
      [| discriminate].
    apply IH. eapply schema_insert_room; eauto.
Qed.

Lemma schema_insert_guests rows db :
  Forall (fun '(name, phone, email) => name <> "") rows ->
  schema_ok db -> schema_ok (insert_guests db rows).
Proof.
  unfold insert_guests. intros H. revert db.
  induction H as [| [[name phone] email] rows Hn _ IH]; cbn; intros db S;
    [exact S |].
  apply IH. now apply schema_insert_guest.
Qed.

Lemma schema_seed req db : schema_ok db -> schema_ok (snd (seed req db)).
Proof.
  intros S. unfold seed.
  destruct (method req); [| exact S].
  destruct (if _ =? 0 then insert_rooms db seed_rooms else inl db)
    as [db1 | cs] eqn:E; [| exact S].
  assert (schema_ok db1) as S1.
  { destruct (_ =? 0); [| now injection E as <-].
    eapply schema_insert_rooms; eauto. }
  cbn [snd].
  destruct (Z.of_nat (List.length (DB.guests db1)) =? 0); [| exact S1].
  apply schema_insert_guests; trivial.
  repeat constructor; discriminate.
Qed.

Lemma schema_app rt req db :
  wf db -> schema_ok db -> schema_ok (snd (app rt req db)).
Proof.
  intros W S. destruct rt; cbn;
    auto using schema_rooms, schema_guests, schema_bookings, schema_seed;
    unfold read_only; destruct (method req); exact S.
Qed.

Lemma reachable_schema_ok db : reachable db -> schema_ok db.
Proof.
  induction 1 as [| rt req db R IH]; [apply schema_empty |].
  apply schema_app; trivial. now apply reachable_wf.
Qed.

End Schema.

(** ** What holds in every reachable database *)

Section Kept.
Context {L : Library}.

Lemma nonneg_not_nan x : Float.nonneg x = true -> Float.is_nan x = false.
Proof. destruct x; cbn; trivial; discriminate. Qed.

(** X1: the keys of each table are 1, 2, ... in the order of insertion: no
    key is reused or skipped, whatever requests failed in between. *)
Theorem keys_count_from_1 db :
  reachable db ->
  map Room.id (DB.rooms db)
  = map Z.of_nat (seq 1 (List.length (DB.rooms db)))
  /\ map Guest.id (DB.guests db)
     = map Z.of_nat (seq 1 (List.length (DB.guests db)))
  /\ map Booking.id (DB.bookings db)
     = map Z.of_nat (seq 1 (List.length (DB.bookings db))).
Proof.
  intros R. apply reachable_schema_ok in R as [H1 H2 H3 _ _ _ _ _].
  unfold keys_from_1 in *. rewrite !length_map in *. auto.
Qed.

(** X2: every booking refers to a room and to a guest that exist. *)
Theorem bookings_refer_to_rows db b :
  reachable db -> In b (DB.bookings db) ->
  (exists r, room_at db (Booking.room_id b) = Some r)
  /\ (exists g, guest_at db (Booking.guest_id b) = Some g).
Proof.
  intros R Hb. split.
  - apply room_at_some. now apply (wf_room_ref db (reachable_wf db R)).
  - apply guest_at_some. now apply (so_guest_ref db (reachable_schema_ok db R)).
Qed.

(** X3: the rows of rooms satisfy the constraints of the schema: room
    numbers are distinct and not empty, the type is one of Single, Double
    and Suite, and the price is a number that is not negative. *)
Theorem rooms_satisfy_constraints db :
  reachable db ->
  NoDup (map Room.number (DB.rooms db))
  /\ forall r, In r (DB.rooms db) ->
       Room.number r <> ""
       /\ In (Room.type r) ["Single"; "Double"; "Suite"]
       /\ Float.is_nan (Room.price_per_night r) = false
       /\ Float.negative (Room.price_per_night r) = false.
Proof.
  intros R. pose proof (reachable_wf db R) as W.
  pose proof (reachable_schema_ok db R) as S.
  split; [apply (so_numbers db S) |].
  intros r Hr. destruct (wf_price db W r Hr) as [Hnn _].
  split; [now apply (wf_number db W) |].
  split; [now apply (so_types db S) |].
  split; [now apply nonneg_not_nan |].
  now apply negative_false_iff, nonneg_not_neg.
Qed.


End Kept.

(** ** No handler removes or rewrites a row *)

Section Frames.
Context {L : Library}.

Lemma nth_error_app_some {A : Type} (l l' : list A) i x :
  nth_error l i = Some x -> nth_error (l ++ l') i = Some x.
Proof.
  intros H. rewrite nth_error_app1; trivial.
  apply nth_error_Some. congruence.
Qed.

Lemma room_same_status r : Room.set_status (Room.status r) r = r.
Proof. now destruct r. Qed.

Lemma booking_same_status b : Booking.set_status (Booking.status b) b = b.
Proof. now destruct b. Qed.

Lemma kept_refl db : kept db db.
Proof.
  repeat split; trivial.
  - intros i r H. exists (Room.status r). now rewrite room_same_status.
  - intros i b H. exists (Booking.status b). now rewrite booking_same_status.
Qed.

Lemma kept_trans db1 db2 db3 : kept db1 db2 -> kept db2 db3 -> kept db1 db3.
Proof.
  intros (R1 & G1 & B1) (R2 & G2 & B2). repeat split.
  - intros i r H. destruct (R1 i r H) as [s Hs].
    destruct (R2 i _ Hs) as [s' Hs']. exists s'. exact Hs'.
  - auto.
  - intros i b H. destruct (B1 i b H) as [s Hs].
    destruct (B2 i _ Hs) as [s' Hs']. exists s'. exact Hs'.
Qed.

Lemma kept_insert_room db number type price status db' :
  DB.insert_room db number type price status = inl db' -> kept db db'.
Proof.
  intros Hi. apply insert_room_inl in Hi as [_ ->].
  destruct (kept_refl db) as (R & G & B). repeat split; trivial.
  intros i r H. exists (Room.status r). rewrite room_same_status.
  now apply nth_error_app_some.
Qed.

Lemma kept_insert_guest db name phone email :
  kept db (DB.insert_guest db name phone email).
Proof.
  destruct (kept_refl db) as (R & G & B). repeat split; trivial.
  intros i g H. now apply nth_error_app_some.
Qed.

Lemma kept_update_room_status db s p :
  kept db (DB.update_room_status db s p).
Proof.
  destruct (kept_refl db) as (R & G & B). repeat split; trivial.
  intros i r H. cbn. rewrite nth_error_map, H. cbn.
  destruct (p (Room.id r)); [now exists s |].
  exists (Room.status r). now rewrite room_same_status.
Qed.

Lemma kept_update_booking_status db s bid :
  kept db (DB.update_booking_status db s bid).
Proof.
  destruct (kept_refl db) as (R & G & B). repeat split; trivial.
  intros i b H. cbn. rewrite nth_error_map, H. cbn.
  destruct (DB.key_is bid (Booking.id b)); [now exists s |].
  exists (Booking.status b). now rewrite booking_same_status.
Qed.

Lemma kept_set_statuses db bid bs rs : kept db (set_statuses db bid bs rs).
Proof.
  unfold set_statuses.
  eapply kept_trans;
    [apply kept_update_booking_status | apply kept_update_room_status].
Qed.

Lemma kept_create_booking req db : kept db (snd (create_booking req db)).
Proof.
  destruct (create_booking req db) as [resp db'] eqn:E.
  assert (resp = RedirectTo "bookings" (Some Booking_created)
          \/ resp <> RedirectTo "bookings" (Some Booking_created))
    as [-> | Hn].
  { destruct resp as [ep [[] |] | | | |]; try (right; discriminate).
    destruct (String.eqb_spec ep "bookings");
      [left; congruence | right; congruence]. }
  - apply create_booking_created in E
      as (ci & co & d_in & d_out & row & gid & total & _ & _ & _ & _ & _
          & _ & _ & _ & _ & _ & ->).
    cbn [snd]. eapply kept_trans; [| apply kept_update_room_status].
    destruct (kept_refl db) as (R & G & B). repeat split; trivial.
    intros i b H. exists (Booking.status b). rewrite booking_same_status.
    now apply nth_error_app_some.
  - pose proof (create_booking_unchanged req db) as U.
    rewrite E in U. cbn [fst snd] in *. rewrite U by exact Hn.
    apply kept_refl.
Qed.

Lemma kept_insert_rooms rows db db' :
  insert_rooms db rows = inl db' -> kept db db'.
Proof.
  revert db. induction rows as [| [[[number type] price] status] rows IH];
    cbn; intros db.
  - intros [= <-]. apply kept_refl.
  - destruct (DB.insert_room _ _ _ _ _) as [db1 | cs] eqn:Ei;
      [| discriminate].
    intros H. eapply kept_trans; [eapply kept_insert_room; eauto | auto].
Qed.

Lemma kept_insert_guests rows db : kept db (insert_guests db rows).
Proof.
  unfold insert_guests. revert db.
  induction rows as [| [[name phone] email] rows IH]; cbn; intros db;
    [apply kept_refl |].
  eapply kept_trans; [apply kept_insert_guest | apply IH].
Qed.

Lemma kept_app rt req db : kept db (snd (app rt req db)).
Proof.
  destruct rt; cbn [app].
  - unfold read_only. destruct (method req); apply kept_refl.
  - unfold rooms. destruct (method req); [apply kept_refl |].
    destruct (String.eqb _ ""); [apply kept_refl |].
    destruct (float_or_0 _); [| apply kept_refl].
    destruct (DB.insert_room _ _ _ _ _) eqn:Ei; [| apply kept_refl].
    eapply kept_insert_room; eauto.
  - unfold guests. destruct (method req); [apply kept_refl |].
    destruct (String.eqb _ ""); [apply kept_refl |].
    apply kept_insert_guest.
  - unfold bookings. destruct (truthy _ && truthy _).
    + destruct (equals _ "checkin"); [apply kept_set_statuses |].
      destruct (equals _ "checkout"); [apply kept_set_statuses |].
      destruct (equals _ "cancel"); [apply kept_set_statuses |].
      apply kept_refl.
    + destruct (method req); [apply kept_refl | apply kept_create_booking].
  - unfold read_only. destruct (method req); apply kept_refl.
  - unfold read_only. destruct (method req); apply kept_refl.
  - unfold read_only. destruct (method req); apply kept_refl.
  - unfold seed. destruct (method req); [| apply kept_refl].
    destruct (if _ =? 0 then insert_rooms db seed_rooms else inl db)
      as [db1 | cs] eqn:E; [| apply kept_refl].
    assert (kept db db1) as K1.
    { destruct (_ =? 0); [| injection E as <-; apply kept_refl].
      eapply kept_insert_rooms; eauto. }
    cbn [snd].
    destruct (Z.of_nat (List.length (DB.guests db1)) =? 0); [| exact K1].
    eapply kept_trans; [exact K1 | apply kept_insert_guests].
Qed.

(** X5: no sequence of requests removes or reorders a row, changes a guest,
    or changes anything of a room or of a booking but its status: a room
    keeps its key, number, type and price, and a booking keeps its key, room,
    guest, dates and total. *)
Theorem rows_are_kept calls db :
  (forall i r, nth_error (DB.rooms db) i = Some r ->
     exists s, nth_error (DB.rooms (run calls db)) i
               = Some (Room.set_status s r))
  /\ (forall i g, nth_error (DB.guests db) i = Some g ->
        nth_error (DB.guests (run calls db)) i = Some g)
  /\ (forall i b, nth_error (DB.bookings db) i = Some b ->
        exists s, nth_error (DB.bookings (run calls db)) i
                  = Some (Booking.set_status s b)).
Proof.
  change (kept db (run calls db)). revert db.
  induction calls as [| [rt req] calls IH]; intros db; cbn;
    [apply kept_refl |].
  eapply kept_trans; [apply kept_app | apply IH].
Qed.

End Frames.

(** ** What a request touches *)

Section Touched.
Context {L : Library}.

(** X6: a transition changes no booking other than the one with the key it
    names, no room other than the room of that booking, and no guest. *)
Theorem transition_touches_one_booking req db a bid n bs rs :
  get (args req) "action" = Some a -> get (args req) "id" = Some bid ->
  bid <> "" -> sql_integer bid = Some n ->
  In (a, bs, rs)
     [ ("checkin", Booking.Checked_In, Room.Occupied);
       ("checkout", Booking.Checked_Out, Room.Available);
       ("cancel", Booking.Cancelled, Room.Available) ] ->
  (forall i b, nth_error (DB.bookings db) i = Some b -> Booking.id b <> n ->
     nth_error (DB.bookings (snd (bookings req db))) i = Some b)
  /\ (forall i r, nth_error (DB.rooms db) i = Some r ->
        (forall b0, booking_at db n = Some b0 ->
                    Room.id r <> Booking.room_id b0) ->
        nth_error (DB.rooms (snd (bookings req db))) i = Some r)
  /\ DB.guests (snd (bookings req db)) = DB.guests db.
Proof.
  intros Ha Hb Hne Hn Hin.
  rewrite (bookings_action req db a bid bs rs Ha Hb Hne Hin).
  split; [| split].
  - intros i b Hi Hid.
    rewrite set_statuses_bookings, nth_error_map, Hi. cbn [option_map].
    rewrite (key_is_eqb (Some bid) n) by exact Hn.
    now rewrite (proj2 (Z.eqb_neq _ _) Hid).
  - intros i r Hi Hother.
    rewrite set_statuses_rooms, nth_error_map, Hi. cbn [option_map].
    rewrite (select_room_id_at db (Some bid) n Hn).
    destruct (booking_at db n) as [b0 |]; cbn [option_map DB.key_eq]; trivial.
    specialize (Hother b0 eq_refl).
    destruct (Z.eqb_spec (Booking.room_id b0) (Room.id r)); congruence.
  - reflexivity.
Qed.

Lemma create_booking_frame req db :
  is_action req = false -> method req = POST ->
  (forall i b, nth_error (DB.bookings db) i = Some b ->
     nth_error (DB.bookings (snd (bookings req db))) i = Some b)
  /\ (forall i r, nth_error (DB.rooms db) i = Some r ->
        DB.key_is (get (form req) "room_id") (Room.id r) = false ->
        nth_error (DB.rooms (snd (bookings req db))) i = Some r)
  /\ DB.guests (snd (bookings req db)) = DB.guests db.
Proof.
  intros Ha Hm. rewrite not_action_post by assumption.
  destruct (create_booking req db) as [resp db'] eqn:E.
  assert (resp = RedirectTo "bookings" (Some Booking_created)
          \/ resp <> RedirectTo "bookings" (Some Booking_created))
    as [-> | Hn].
  { destruct resp as [ep [[] |] | | | |]; try (right; discriminate).
    destruct (String.eqb_spec ep "bookings");
      [left; congruence | right; congruence]. }
  - apply create_booking_created in E
      as (ci & co & d_in & d_out & row & gid & total & _ & _ & _ & _ & _
          & _ & _ & _ & _ & _ & ->).
    cbn [snd DB.update_room_status DB.rooms DB.guests DB.bookings].
    split; [| split; [| reflexivity]].
    + intros i b Hi. now apply nth_error_app_some.
    + intros i r Hi Hk. rewrite nth_error_map, Hi. cbn [option_map].
      now rewrite Hk.
  - pose proof (create_booking_unchanged req db) as U.
    rewrite E in U. cbn [fst snd] in *. rewrite U by exact Hn. auto.
Qed.

(** X7: a booking request changes no booking that exists, no guest, and no
    room other than the rooms with the key it names. *)
Theorem create_booking_touches_one_room req db :
  is_action req = false -> method req = POST ->
  (forall i b, nth_error (DB.bookings db) i = Some b ->
     nth_error (DB.bookings (snd (bookings req db))) i = Some b)
  /\ (forall i r, nth_error (DB.rooms db) i = Some r ->
        DB.key_is (get (form req) "room_id") (Room.id r) = false ->
        nth_error (DB.rooms (snd (bookings req db))) i = Some r)
  /\ DB.guests (snd (bookings req db)) = DB.guests db.
Proof. exact (create_booking_frame req db). Qed.

Lemma select_room_id_set_statuses db bid bid' bs rs :
  DB.select_room_id (set_statuses db bid' bs rs) bid
  = DB.select_room_id db bid.
Proof.
  unfold DB.select_room_id. rewrite set_statuses_bookings, find_map.
  - destruct (find _ (DB.bookings db)) as [b |]; cbn; trivial.
    destruct (DB.key_is bid' (Booking.id b)); reflexivity.
  - intros b. destruct (DB.key_is bid' (Booking.id b)); reflexivity.
Qed.

Lemma set_statuses_twice db bid bs1 rs1 bs2 rs2 :
  set_statuses (set_statuses db bid bs1 rs1) bid bs2 rs2
  = set_statuses db bid bs2 rs2.
Proof.
  rewrite <- (db_eta (set_statuses (set_statuses db bid bs1 rs1) bid bs2 rs2)).
  rewrite <- (db_eta (set_statuses db bid bs2 rs2)).
  rewrite !set_statuses_rooms, !set_statuses_bookings, !set_statuses_guests.
  rewrite select_room_id_set_statuses, !map_map. f_equal.
  - apply map_ext. intros r.
    destruct (DB.key_eq _ (Room.id r)) eqn:E; cbn; now rewrite E.
  - apply map_ext. intros b.
    destruct (DB.key_is bid (Booking.id b)) eqn:E; cbn; now rewrite E.
Qed.

(** X8: of two transitions on the same key only the second one shows: the
    database after both is the database after the second alone (so a
    transition done twice is the transition done once). *)
Theorem last_transition_wins req1 req2 db a1 a2 bid bs1 rs1 bs2 rs2 :
  get (args req1) "action" = Some a1 -> get (args req1) "id" = Some bid ->
  get (args req2) "action" = Some a2 -> get (args req2) "id" = Some bid ->
  bid <> "" ->
  In (a1, bs1, rs1)
     [ ("checkin", Booking.Checked_In, Room.Occupied);
       ("checkout", Booking.Checked_Out, Room.Available);
       ("cancel", Booking.Cancelled, Room.Available) ] ->
  In (a2, bs2, rs2)
     [ ("checkin", Booking.Checked_In, Room.Occupied);
       ("checkout", Booking.Checked_Out, Room.Available);
       ("cancel", Booking.Cancelled, Room.Available) ] ->
  snd (bookings req2 (snd (bookings req1 db))) = snd (bookings req2 db).
Proof.
  intros A1 B1 A2 B2 Hne H1 H2.
  rewrite (bookings_action req1 db a1 bid bs1 rs1 A1 B1 Hne H1).
  rewrite !(bookings_action req2 _ a2 bid bs2 rs2 A2 B2 Hne H2).
  apply set_statuses_twice.
Qed.

(** X9: a GET request changes nothing, unless it is [/seed] or a
    [/bookings] link with an action and an id. *)
Theorem get_changes_nothing rt req db :
  method req = GET -> rt <> Seed ->
  rt <> Bookings \/ is_action req = false ->
  snd (app rt req db) = db.
Proof.
  intros Hm Hs Hb. destruct rt; cbn [app]; try congruence;
    unfold read_only, rooms, guests; rewrite ?Hm; trivial.
  destruct Hb as [Hb | Hb]; [congruence |].
  now rewrite not_action_get.
Qed.

(** X10: a guest request with a name that is empty once stripped is refused
    and changes nothing; any other one adds one guest, stripped, under the
    next key, after the guests there are, and changes no room and no
    booking. *)
Theorem create_guest_outcomes req db name :
  reachable db -> method req = POST ->
  name = strip (get_default (form req) "name" "") ->
  (name = "" ->
   guests req db = (Page "Guests" (Some Guest_name_required), db))
  /\ (name <> "" ->
      fst (guests req db) = RedirectTo "guests" (Some Guest_added)
      /\ DB.guests (snd (guests req db))
         = DB.guests db
           ++ [Guest.mk (Z.of_nat (S (List.length (DB.guests db)))) name
                 (strip (get_default (form req) "phone" ""))
                 (strip (get_default (form req) "email" ""))]
      /\ DB.rooms (snd (guests req db)) = DB.rooms db
      /\ DB.bookings (snd (guests req db)) = DB.bookings db).
Proof.
  intros R Hm ->. unfold guests. rewrite Hm.
  destruct (String.eqb_spec (strip (get_default (form req) "name" "")) "")
    as [E | E]; split; intros H; try contradiction; trivial.
  cbn [fst snd DB.insert_guest DB.guests DB.rooms DB.bookings].
  repeat split. do 3 f_equal.
  rewrite (keys_from_1_next _ (so_guest_ids db (reachable_schema_ok db R))).
  now rewrite length_map.
Qed.

End Touched.

(** ** Seeding *)

Section Seeding.
Context {L : Library}.

Lemma seed_rooms_inserted gs bs :
  insert_rooms (DB.mk [] gs bs) seed_rooms
  = inl (DB.mk
           [ Room.mk 1 "101" "Single" (Float.of_int 1500) Room.Available;
             Room.mk 2 "102" "Double" (Float.of_int 2500) Room.Available;
             Room.mk 3 "201" "Suite" (Float.of_int 5000) Room.Maintenance ]
           gs bs).
Proof. vm_compute. reflexivity. Qed.

Lemma seed_guests_inserted rs bs :
  insert_guests (DB.mk rs [] bs) seed_guests
  = DB.mk rs
      [ Guest.mk 1 "Aarav Sharma" "9999999999" "aarav@example.com";
        Guest.mk 2 "Isha Patel" "8888888888" "isha@example.com" ]
      bs.
Proof. reflexivity. Qed.

(** X11: [/seed] never fails, fills the tables of rooms and of guests only
    when they are empty, leaves the bookings alone, and seeding a second
    time changes nothing. *)
Theorem seed_fills_empty_tables req db :
  method req = GET ->
  fst (seed req db) = RedirectTo "index" (Some Seeded)
  /\ (DB.rooms db <> [] -> DB.rooms (snd (seed req db)) = DB.rooms db)
  /\ (DB.guests db <> [] -> DB.guests (snd (seed req db)) = DB.guests db)
  /\ (DB.rooms db = [] ->
      map Room.number (DB.rooms (snd (seed req db))) = ["101"; "102"; "201"])
  /\ (DB.guests db = [] ->
      map Guest.name (DB.guests (snd (seed req db)))
      = ["Aarav Sharma"; "Isha Patel"])
  /\ DB.bookings (snd (seed req db)) = DB.bookings db
  /\ snd (seed req (snd (seed req db))) = snd (seed req db).
Proof.
  intros Hm. unfold seed. rewrite Hm.
  destruct db as [[| r rs] [| g gs] bs];
    cbn [DB.rooms DB.guests List.length Z.of_nat Z.eqb];
    rewrite ?seed_rooms_inserted;
    cbn [fst snd DB.rooms DB.guests DB.bookings List.length Z.of_nat Z.eqb
         Pos.of_succ_nat];
    rewrite ?seed_guests_inserted;
    cbn [fst snd DB.rooms DB.guests DB.bookings List.length Z.of_nat Z.eqb
         Pos.of_succ_nat map Room.number Guest.name];
    repeat split; trivial; try congruence.
Qed.

End Seeding.

(** ** A stay of no night *)

Section NoNight.
Context {L : Library}.

Lemma ltb_false_toordinal d1 d2 :
  Date.ltb d1 d2 = false -> Date.toordinal d2 <= Date.toordinal d1.
Proof.
  intros H. destruct (Date.ltb d2 d1) eqn:E.
  - apply ltb_toordinal in E. lia.
  - destruct d1 as [y1 m1 dd1 ok1], d2 as [y2 m2 dd2 ok2].
    unfold Date.ltb, Date.toordinal in *.
    cbn [Date.year Date.month Date.day] in *. clear ok1 ok2.
    rewrite !orb_false_iff, !andb_false_iff, !orb_false_iff,
      !andb_false_iff, !Z.ltb_ge, !Z.eqb_neq in H, E.
    assert (y1 = y2) as -> by lia.
    assert (m1 = m2) as -> by lia.
    assert (dd1 = dd2) as -> by lia.
    lia.
Qed.

(** X12: when check-out is not after check-in the nights are clamped to
    zero: the total of a finite price is a zero (with the sign of the
    price), and the total of an infinite price is not a number. *)
Theorem total_without_nights price ci co d_in d_out :
  strptime ci = Some d_in -> strptime co = Some d_out ->
  Date.ltb d_in d_out = false ->
  compute_total_amount price ci co
  = Some match price with
         | S754_zero s | S754_finite s _ _ => S754_zero s
         | S754_infinity _ | S754_nan => S754_nan
         end.
Proof.
  intros E1 E2 H. unfold compute_total_amount. rewrite E1, E2.
  apply ltb_false_toordinal in H.
  rewrite Z.max_r by (unfold Date.days_between; lia).
  destruct price as [s | s | | s m e]; cbn; trivial;
    destruct s; reflexivity.
Qed.

End NoNight.

(** ** Listings *)

Section Listings.
Context {L : Library}.

Lemma insert_by_last {A : Type} (before : A -> A -> bool) x l :
  (forall y, In y l -> before x y = false) ->
  insert_by before x l = l ++ [x].
Proof.
  induction l as [| y l IH]; cbn; intros H; trivial.
  rewrite (H y) by auto. f_equal. apply IH. auto.
Qed.

(** Sorting rows of increasing keys by decreasing key reverses them. *)
Lemma order_by_newest_first {A : Type} (key : A -> Z) l :
  StronglySorted Z.lt (map key l) ->
  order_by (fun a b => key b <=? key a) l = rev l.
Proof.
  induction l as [| a l IH]; cbn; trivial.
  intros H. inversion H as [| ? ? Hs Ha]; subst.
  unfold order_by in IH. rewrite IH by exact Hs.
  apply insert_by_last. intros y Hy. apply Z.leb_gt.
  rewrite Forall_forall in Ha. apply Ha, in_map.
  now apply in_rev.
Qed.

Lemma in_insert_by {A : Type} (before : A -> A -> bool) x y l :
  In y (insert_by before x l) <-> y = x \/ In y l.
Proof.
  induction l as [| z l IH]; cbn; [intuition congruence |].
  destruct (before x z); cbn; [intuition congruence |].
  rewrite IH. intuition congruence.
Qed.

Lemma in_order_by {A : Type} (before : A -> A -> bool) y l :
  In y (order_by before l) <-> In y l.
Proof.
  induction l as [| x l IH]; cbn; [tauto |].
  unfold order_by in IH. rewrite in_insert_by, IH. intuition congruence.
Qed.

Lemma sorted_insert_by {A : Type} (before : A -> A -> bool) x l :
  (forall a b, before a b = true \/ before b a = true) ->
  Sorted (fun a b => before a b = true) l ->
  Sorted (fun a b => before a b = true) (insert_by before x l).
Proof.
  intros Htot. induction 1 as [| y l Hs IH Hd]; cbn.
  - repeat constructor.
  - destruct (before x y) eqn:E.
    + repeat constructor; trivial.
    + constructor; [exact IH |].
      destruct l as [| z l]; cbn.
      * constructor. destruct (Htot x y); congruence.
      * destruct (before x z); constructor.
        -- destruct (Htot x y); congruence.
        -- now inversion Hd.
Qed.

Lemma sorted_order_by {A : Type} (before : A -> A -> bool) l :
  (forall a b, before a b = true \/ before b a = true) ->
  Sorted (fun a b => before a b = true) (order_by before l).
Proof.
  intros Htot. induction l as [| x l IH]; cbn; [constructor |].
  now apply sorted_insert_by.
Qed.

Lemma sorted_map {A B : Type} (f : A -> B) (R : B -> B -> Prop) l :
  Sorted (fun a b => R (f a) (f b)) l -> Sorted R (map f l).
Proof.
  induction 1 as [| x l Hs IH Hd]; cbn; constructor; trivial.
  destruct Hd; cbn; constructor; trivial.
Qed.


(** X13: the listings of rooms and of guests show every row once, the one
    created last first. *)
Theorem listings_newest_first db :
  reachable db ->
  api_rooms db = rev (DB.rooms db) /\ api_guests db = rev (DB.guests db).
Proof.
  intros R. pose proof (reachable_schema_ok db R) as S.
  unfold api_rooms, api_guests, rows_to_list. split.
  - apply (order_by_newest_first Room.id).
    apply keys_from_1_increasing, (so_room_ids db S).
  - apply (order_by_newest_first Guest.id).
    apply keys_from_1_increasing, (so_guest_ids db S).
Qed.





(** X15: the booking form offers the rooms that are not under maintenance,
    and only those, in the order of their numbers read as text. *)
Theorem rooms_available_not_maintenance db :
  (forall rid number,
      In (rid, number) (rooms_available db) <->
      exists r, In r (DB.rooms db) /\ Room.id r = rid
                /\ Room.number r = number
                /\ Room.status r <> Room.Maintenance)
  /\ Sorted (fun a b => String.leb a b = true)
       (map snd (rooms_available db)).
Proof.
  unfold rooms_available, rows_to_list. split.
  - intros rid number. rewrite in_map_iff. split.
    + intros (r & [= <- <-] & Hr). apply in_order_by, filter_In in Hr.
      destruct Hr as [Hr Hs]. exists r. repeat split; trivial.
      intros E. rewrite E in Hs. discriminate.
    + intros (r & Hr & <- & <- & Hs). exists r. split; trivial.
      apply in_order_by, filter_In. split; trivial.
      destruct (Room.status r); trivial. contradiction.
  - rewrite map_map. cbn [snd]. apply sorted_map.
    apply (sorted_order_by
             (fun a b => String.leb (Room.number a) (Room.number b))).
    intros a b. apply String.leb_total.
Qed.

End Listings.

(** ** The total is a number *)

Section TotalIsNumber.

Lemma shr_1_nonneg mrs : 0 <= shr_m mrs -> 0 <= shr_m (shr_1 mrs).
Proof.
  destruct mrs as [m r s]. destruct m as [| p | p]; cbn; intros H;
    try lia; destruct p; cbn; lia.
Qed.

Lemma iter_pos_keeps {A : Type} (P : A -> Prop) (f : A -> A) :
  (forall x, P x -> P (f x)) -> forall p x, P x -> P (iter_pos f p x).
Proof.
  intros Hf. induction p as [p IH | p IH |]; cbn; intros x Hx; auto.
Qed.

Lemma shr_fexp_nonneg m e l :
  0 <= m -> 0 <= shr_m (fst (shr_fexp Float.prec Float.emax m e l)).
Proof.
  intros Hm. unfold shr_fexp, shr.
  assert (0 <= shr_m (shr_record_of_loc m l)) as H0
    by (destruct l as [| []]; exact Hm).
  destruct (fexp _ _ _ - e) as [| p | p]; cbn [fst]; trivial.
  apply (iter_pos_keeps (fun mrs => 0 <= shr_m mrs)); trivial.
  apply shr_1_nonneg.
Qed.

Lemma round_nearest_even_nonneg m l : 0 <= m -> 0 <= round_nearest_even m l.
Proof.
  intros Hm. destruct l as [| []]; cbn; try lia.
  destruct (Z.even m); lia.
Qed.

(** Rounding a mantissa that is not negative gives a number. *)
Lemma binary_round_aux_not_nan s m e l :
  0 <= m ->
  Float.is_nan (binary_round_aux Float.prec Float.emax s m e l) = false.
Proof.
  intros Hm. unfold binary_round_aux.
  pose proof (shr_fexp_nonneg m e l Hm) as H1.
  destruct (shr_fexp _ _ m e l) as [mrs e']. cbn [fst] in H1.
  pose proof (shr_fexp_nonneg _ e' loc_Exact
                (round_nearest_even_nonneg _ (loc_of_shr_record mrs) H1))
    as H2.
  destruct (shr_fexp _ _ _ e' loc_Exact) as [mrs' e'']. cbn [fst] in H2.
  destruct (shr_m mrs'); [reflexivity | | lia].
  destruct (e'' <=? Float.emax - Float.prec); reflexivity.
Qed.

(** A mantissa that fills the format is kept as it is. *)
Lemma binary_round_aux_exact s m e :
  fexp Float.prec Float.emax (Zpos (digits2_pos m) + e) = e ->
  e <= Float.emax - Float.prec ->
  binary_round_aux Float.prec Float.emax s (Zpos m) e loc_Exact
  = S754_finite s m e.
Proof.
  intros Hf He. unfold binary_round_aux, shr_fexp.
  cbn [Zdigits2 shr_record_of_loc]. rewrite Hf, Z.sub_diag.
  cbn [shr shr_m loc_of_shr_record round_nearest_even Zdigits2
       shr_record_of_loc].
  rewrite Hf, Z.sub_diag. cbn [shr shr_m].
  now rewrite (proj2 (Z.leb_le _ _) He).
Qed.

Lemma digits2_pos_iter p k :
  digits2_pos (Pos.iter xO p k) = (digits2_pos p + k)%positive.
Proof.
  induction k as [| k IH] using Pos.peano_ind.
  - cbn. lia.
  - rewrite Pos.iter_succ. cbn [digits2_pos]. rewrite IH. lia.
Qed.

Lemma digits2_pos_size p : digits2_pos p = Pos.size p.
Proof. induction p; cbn; congruence. Qed.

Lemma digits2_pos_le p k :
  0 <= k -> Zpos p < 2 ^ k -> Zpos (digits2_pos p) <= k.
Proof.
  intros Hk Hp. rewrite digits2_pos_size.
  destruct (Z_le_gt_dec (Zpos (Pos.size p)) k) as [H | H]; trivial.
  exfalso. pose proof (Pos.size_le p) as Hs.
  apply Pos2Z.pos_le_pos in Hs. rewrite Pos2Z.inj_pow in Hs.
  assert (2 ^ (k + 1) <= 2 ^ Zpos (Pos.size p))
    by (apply Z.pow_le_mono_r; lia).
  rewrite Z.pow_add_r in * by lia. change (Zpos p~0) with (2 * Zpos p) in Hs.
  lia.
Qed.

(** A positive integer below [2^53] converts to a positive finite float. *)
Lemma of_int_finite n :
  0 < n < 2 ^ 53 -> exists m e, Float.of_int n = S754_finite false m e.
Proof.
  intros [Hn Hb]. destruct n as [| p | p]; try lia.
  unfold Float.of_int, binary_normalize, binary_round.
  pose proof (digits2_pos_le p 53 ltac:(lia) Hb) as Hd.
  assert (Hf : fexp Float.prec Float.emax (Zpos (digits2_pos p) + 0)
               = Zpos (digits2_pos p) - 53).
  { unfold fexp, emin, Float.prec, Float.emax. lia. }
  rewrite Hf. unfold shl_align.
  destruct (Zpos (digits2_pos p) - 53 - 0) as [| k | k] eqn:Ek; try lia.
  - eexists _, _. apply binary_round_aux_exact.
    + rewrite Hf. lia.
    + unfold Float.prec, Float.emax. lia.
  - eexists _, _. apply binary_round_aux_exact.
    + rewrite digits2_pos_iter.
      unfold fexp, emin, Float.prec, Float.emax. lia.
    + unfold Float.prec, Float.emax. lia.
Qed.

Lemma mul_not_nan x m e :
  sign_clear x -> Float.is_nan x = false ->
  Float.is_nan (Float.mul x (S754_finite false m e)) = false.
Proof.
  destruct x as [s | s | | s mx ex]; cbn; trivial.
  intros _ _. now apply binary_round_aux_not_nan.
Qed.

Lemma round_not_nan x ndigits :
  Float.is_nan x = false -> Float.is_nan (Float.round x ndigits) = false.
Proof.
  destruct x as [s | s | | s m e]; cbn; trivial. intros _.
  destruct (Float.scaled m e ndigits) as [| c | c]; cbn; trivial.
  unfold SFdiv, SFdiv_core_binary.
  set (m' := match _ - _ - _ with
             | Z0 => Zpos c | Zpos _ => Z.shiftl (Zpos c) _ | Zneg _ => 0
             end).
  assert (0 <= m') as Hm'.
  { unfold m'. destruct (_ - _ - _); try lia.
    apply Z.shiftl_nonneg. lia. }
  pose proof (Z.div_pos m' (Zpos (Z.to_pos (10 ^ Z.of_N ndigits))) Hm'
                ltac:(lia)) as Hq.
  unfold Z.div in Hq.
  destruct (Z.div_eucl m' _) as [q r].
  now apply binary_round_aux_not_nan.
Qed.

Lemma toordinal_bounds d : 1 <= Date.toordinal d <= 3652059.
Proof.
  destruct d as [y m dd ok]. unfold Date.toordinal.
  cbn [Date.year Date.month Date.day].
  pose proof (day_of_year_bounds _ _ _ ok) as B.
  apply valid_ymd_iff in ok as (Hy & _ & _).
  pose proof (days_before_year_mono 1 y ltac:(lia)) as H1.
  pose proof (days_before_year_succ y) as Hs.
  pose proof (days_before_year_mono (y + 1) 10000 ltac:(lia)) as H2.
  change (Date.days_before_year 1) with 0 in H1.
  change (Date.days_before_year 10000) with 3652059 in H2.
  destruct (Date.is_leap y); lia.
Qed.

End TotalIsNumber.

(** ** When a booking request succeeds *)

Section Success.
Context {L : Library}.

Lemma total_not_nan price ci co d_in d_out total :
  sign_clear price -> Float.is_nan price = false ->
  strptime ci = Some d_in -> strptime co = Some d_out ->
  Date.ltb d_in d_out = true ->
  compute_total_amount price ci co = Some total ->
  Float.is_nan total = false.
Proof.
  intros Hs Hn E1 E2 Hlt Et.
  rewrite (compute_total_amount_nights _ _ _ _ _ E1 E2 Hlt) in Et.
  injection Et as <-.
  pose proof (ltb_days_between _ _ Hlt) as Hd.
  pose proof (toordinal_bounds d_in). pose proof (toordinal_bounds d_out).
  destruct (of_int_finite (Date.days_between d_out d_in)) as (m & e & ->).
  { unfold Date.days_between in *. split; [lia |].
    apply Z.le_lt_trans with 3652059; [lia | reflexivity]. }
  now apply round_not_nan, mul_not_nan.
Qed.

Lemma existsb_key_is param (A : Type) (key : A -> Z) (l : list A) x :
  In x l -> DB.key_is param (key x) = true ->
  existsb (DB.key_is param) (map key l) = true.
Proof.
  intros Hx Hk. apply existsb_exists. exists (key x).
  split; [now apply in_map | exact Hk].
Qed.

(** X16: in a reachable database a booking request succeeds exactly when
    its dates parse with check-out after check-in, its room key has a row
    and its guest key has a row; nothing else (a room that is Occupied or
    under Maintenance, dates that overlap another booking) stands in its
    way. *)
Theorem create_booking_succeeds_iff req db :
  reachable db -> is_action req = false -> method req = POST ->
  fst (bookings req db) = RedirectTo "bookings" (Some Booking_created)
  <->
  (exists ci co d_in d_out,
      get (form req) "check_in" = Some ci
      /\ get (form req) "check_out" = Some co
      /\ strptime ci = Some d_in /\ strptime co = Some d_out
      /\ Date.ltb d_in d_out = true)
  /\ (exists r, In r (DB.rooms db)
                /\ DB.key_is (get (form req) "room_id") (Room.id r) = true)
  /\ (exists g, In g (DB.guests db)
                /\ DB.key_is (get (form req) "guest_id") (Guest.id g) = true).
Proof.
  intros R Ha Hm. rewrite not_action_post by assumption. split.
  - intros H. destruct (create_booking req db) as [resp db'] eqn:E.
    cbn [fst] in H. subst resp.
    apply create_booking_created in E
      as (ci & co & d_in & d_out & row & gid & total & Eci & Eco & E1 & E2
          & Hlt & Er & Hgid & Hgin & _).
    split; [exists ci, co, d_in, d_out; auto |]. split.
    + apply find_some in Er as [Hin Hk]. eauto.
    + apply in_map_iff in Hgin as (g & <- & Hg). exists g. split; trivial.
      now apply key_is_iff.
  - intros (Hd & (r & Hr & Hkr) & (g & Hg & Hkg)).
    unfold create_booking.
    rewrite (proj2 (valid_dates_iff _ _) Hd). cbn [negb].
    destruct Hd as (ci & co & d_in & d_out & -> & -> & E1 & E2 & Hlt).
    destruct (DB.select_room db _) as [row |] eqn:Er.
    2:{ apply (find_none _ _ Er) in Hr. cbn in Hr. congruence. }
    apply select_room_some in Er as Hrow. destruct Hrow as [Hin Hrid].
    destruct (compute_total_amount _ ci co) as [total |] eqn:Et.
    2:{ rewrite (compute_total_amount_nights _ _ _ _ _ E1 E2 Hlt) in Et.
        discriminate. }
    destruct (wf_price db (reachable_wf db R) row Hin) as [Hnn Hreal].
    assert (Float.is_nan total = false) as Hnan.
    { apply (total_not_nan (Room.price_per_night row) ci co d_in d_out);
        trivial.
      - now apply stored_price_sign_clear.
      - now apply nonneg_not_nan. }
    unfold DB.insert_booking, DB.booking_violations, DB.reference.
    destruct (get (form req) "room_id") as [rt |] eqn:Ert;
      [| discriminate Hkr].
    destruct (get (form req) "guest_id") as [gt |] eqn:Egt;
      [| discriminate Hkg].
    rewrite (existsb_key_is _ _ Room.id _ r Hr Hkr).
    rewrite (existsb_key_is _ _ Guest.id _ g Hg Hkg).
    rewrite Hnan. cbn [app].
    apply key_is_iff in Hkr, Hkg. rewrite Hkr, Hkg. reflexivity.
Qed.

End Success.

(** ** Room requests that are refused, and bookings that moved on *)

Section Edges.
Context {L : Library}.

(** X17: a room request with a number that is empty once stripped is
    refused before the price is read; with a price that [float] rejects it
    raises [ValueError]; neither changes the database.  A price left empty
    counts as 0. *)
Theorem create_room_edge_cases req db number price :
  method req = POST ->
  number = strip (get_default (form req) "number" "") ->
  price = strip (get_default (form req) "price" "0") ->
  (number = "" ->
   rooms req db = (Page "Rooms" (Some Room_number_required), db))
  /\ (number <> "" -> price <> "" -> py_float price = None ->
      rooms req db = (Raise ValueError, db))
  /\ (number <> "" -> price = "" ->
      rooms req db
      = match DB.insert_room db number
                (get_default (form req) "type" "Single") Float.zero
                Room.Available with
        | inl db' => (RedirectTo "rooms" (Some Room_added), db')
        | inr cs => (Page "Rooms" (Some (Error (IntegrityError cs))), db)
        end).
Proof.
  intros Hm -> ->. unfold rooms, float_or_0. rewrite Hm.
  destruct (String.eqb_spec (strip (get_default (form req) "number" "")) "")
    as [En | En];
    (split; [| split]); intros; try contradiction; trivial.
  - destruct (String.eqb_spec (strip (get_default (form req) "price" "0")) "");
      [contradiction |].
    now rewrite H1.
  - rewrite H0. reflexivity.
Qed.

Lemma insert_rooms_bookings rows db db' :
  insert_rooms db rows = inl db' -> DB.bookings db' = DB.bookings db.
Proof.
  revert db. induction rows as [| [[[number type] price] status] rows IH];
    cbn; intros db.
  - now intros [= <-].
  - destruct (DB.insert_room _ _ _ _ _) as [db1 | cs] eqn:Ei;
      [| discriminate].
    intros H. rewrite (IH _ H).
    apply insert_room_inl in Ei as [_ ->]. reflexivity.
Qed.

Lemma insert_guests_bookings rows db :
  DB.bookings (insert_guests db rows) = DB.bookings db.
Proof.
  unfold insert_guests. revert db.
  induction rows as [| [[name phone] email] rows IH]; cbn; intros db;
    trivial.
  now rewrite IH.
Qed.

(** Only [/bookings] writes the table of bookings. *)
Lemma bookings_table_elsewhere rt req db :
  rt <> Bookings -> DB.bookings (snd (app rt req db)) = DB.bookings db.
Proof.
  intros Hrt. destruct rt; cbn [app]; try congruence.
  - unfold read_only. now destruct (method req).
  - unfold rooms. destruct (method req); trivial.
    destruct (String.eqb _ ""); trivial.
    destruct (float_or_0 _); trivial.
    destruct (DB.insert_room _ _ _ _ _) eqn:Ei; trivial.
    apply insert_room_inl in Ei as [_ ->]. reflexivity.
  - unfold guests. destruct (method req); trivial.
    now destruct (String.eqb _ "").
  - unfold read_only. now destruct (method req).
  - unfold read_only. now destruct (method req).
  - unfold read_only. now destruct (method req).
  - unfold seed. destruct (method req); trivial.
    destruct (if _ =? 0 then insert_rooms db seed_rooms else inl db)
      as [db1 | cs] eqn:E; trivial.
    assert (DB.bookings db1 = DB.bookings db) as E1.
    { destruct (_ =? 0); [| now injection E as <-].
      now apply insert_rooms_bookings in E. }
    cbn [snd].
    destruct (Z.of_nat (List.length (DB.guests db1)) =? 0);
      [now rewrite insert_guests_bookings | exact E1].
Qed.

(** A request leaves a booking as it is or moves it to a status other than
    Booked. *)
Lemma booking_step rt req db i b :
  nth_error (DB.bookings db) i = Some b ->
  nth_error (DB.bookings (snd (app rt req db))) i = Some b
  \/ exists s, s <> Booking.Booked
       /\ nth_error (DB.bookings (snd (app rt req db))) i
          = Some (Booking.set_status s b).
Proof.
  intros Hi.
  assert (rt = Bookings \/ rt <> Bookings) as [-> | Hrt]
    by (destruct rt; auto; right; discriminate).
  2:{ left. now rewrite bookings_table_elsewhere. }
  cbn [app]. destruct (is_action req) eqn:Ha.
  - rewrite is_action_bookings by exact Ha. cbv zeta.
    assert (forall bs rs, bs <> Booking.Booked ->
              nth_error (DB.bookings (set_statuses db
                           (get (args req) "id") bs rs)) i = Some b
              \/ exists s, s <> Booking.Booked
                   /\ nth_error (DB.bookings (set_statuses db
                                   (get (args req) "id") bs rs)) i
                      = Some (Booking.set_status s b)) as Hset.
    { intros bs rs Hbs.
      rewrite set_statuses_bookings, nth_error_map, Hi. cbn [option_map].
      destruct (DB.key_is _ (Booking.id b)); [right; eauto | now left]. }
    destruct (equals _ "checkin"); [apply Hset; discriminate |].
    destruct (equals _ "checkout"); [apply Hset; discriminate |].
    destruct (equals _ "cancel"); [apply Hset; discriminate |].
    now left.
  - left. destruct (method req) eqn:Hm.
    + now rewrite not_action_get.
    + apply (create_booking_frame req db Ha Hm). exact Hi.
Qed.

End Edges.

Section MovedOn.
Context {L : Library}.

(** X18: no request brings a booking back to Booked: through any sequence
    of requests, a booking that is Checked-In, Checked-Out or Cancelled
    stays at its place with a status other than Booked. *)
Theorem never_back_to_booked calls db i b :
  nth_error (DB.bookings db) i = Some b ->
  Booking.status b <> Booking.Booked ->
  exists b',
    nth_error (DB.bookings (run calls db)) i = Some b'
    /\ Booking.status b' <> Booking.Booked.
Proof.
  revert db b. induction calls as [| [rt req] calls IH]; intros db b Hi Hs.
  - exists b. auto.
  - cbn [run fold_left fst snd].
    destruct (booking_step rt req db i b Hi) as [H | (s & Hne & H)].
    + exact (IH _ b H Hs).
    + exact (IH _ _ H Hne).
Qed.

End MovedOn.

(** ** The further properties, run *)

(** The rooms the form offers for the seeded database. *)
Example seeded_rooms_available :
  rooms_available hotel_seeded = [(1, "101"); (2, "102")].
Proof. reflexivity. Qed.

(** X1 at [hotel_twice]. *)
Lemma keys_count_from_1_witness :
  map Room.id (DB.rooms hotel_twice) = [1]
  /\ map Guest.id (DB.guests hotel_twice) = [1]
  /\ map Booking.id (DB.bookings hotel_twice) = [1; 2].
Proof.
  exact (keys_count_from_1 (L := Text.library) hotel_twice
           hotel_twice_reachable).
Defined.

(** X2 at the booking of [hotel]. *)
Lemma bookings_refer_to_rows_witness :
  (exists r, room_at hotel (Booking.room_id hotel_booking) = Some r)
  /\ (exists g, guest_at hotel (Booking.guest_id hotel_booking) = Some g).
Proof.
  apply (bookings_refer_to_rows (L := Text.library) hotel hotel_booking
           hotel_reachable).
  vm_compute. left. reflexivity.
Defined.

(** X3 at the seeded database with a booking. *)
Lemma rooms_satisfy_constraints_witness :
  NoDup (map Room.number (DB.rooms hotel_seeded_booked))
  /\ forall r, In r (DB.rooms hotel_seeded_booked) ->
       Room.number r <> ""
       /\ In (Room.type r) ["Single"; "Double"; "Suite"]
       /\ Float.is_nan (Room.price_per_night r) = false
       /\ Float.negative (Room.price_per_night r) = false.
Proof.
  exact (rooms_satisfy_constraints (L := Text.library) hotel_seeded_booked
           hotel_seeded_booked_reachable).
Defined.


(** X5 at [hotel], through a check-out, a second booking and a seed. *)
Lemma rows_are_kept_witness :
  exists s,
    nth_error
      (DB.bookings
         (run (L := Text.library)
            [ (Bookings, transition "1" "checkout");
              (Bookings, createBooking "1" "1" "2024-03-01" "2024-03-02");
              (Seed, mk_request GET [] []) ]
            hotel)) 0
    = Some (Booking.set_status s hotel_booking).
Proof.
  apply (proj2 (proj2 (rows_are_kept (L := Text.library) _ hotel))).
  reflexivity.
Defined.

(** X6 at [hotel_twice]: a check-in of booking 1 leaves booking 2 alone. *)
Lemma transition_touches_one_booking_witness :
  nth_error
    (DB.bookings
       (snd (bookings (L := Text.library) (transition "1" "checkin")
               hotel_twice))) 1
  = Some (Booking.mk 2 1 1 "2024-02-01" "2024-02-03" Booking.Booked
            (Float.of_int 3000)).
Proof.
  apply (proj1 (transition_touches_one_booking (L := Text.library)
                  (transition "1" "checkin") hotel_twice "checkin" "1" 1
                  Booking.Checked_In Room.Occupied
                  eq_refl eq_refl ltac:(discriminate) eq_refl
                  (or_introl eq_refl))).
  - vm_compute. reflexivity.
  - discriminate.
Defined.

(** X7 at the seeded database: booking room 1 leaves room 201 alone. *)
Lemma create_booking_touches_one_room_witness :
  nth_error
    (DB.rooms
       (snd (bookings (L := Text.library)
               (createBooking "1" "1" "2024-01-01" "2024-01-03")
               hotel_seeded))) 2
  = Some room_201.
Proof.
  apply (proj1 (proj2 (create_booking_touches_one_room (L := Text.library)
                         (createBooking "1" "1" "2024-01-01" "2024-01-03")
                         hotel_seeded eq_refl eq_refl)));
    reflexivity.
Defined.

(** X8 at [hotel]: a check-in then a check-out is a check-out. *)
Lemma last_transition_wins_witness :
  snd (bookings (L := Text.library) (transition "1" "checkout")
         (snd (bookings (L := Text.library) (transition "1" "checkin") hotel)))
  = snd (bookings (L := Text.library) (transition "1" "checkout") hotel).
Proof.
  apply (last_transition_wins (L := Text.library)
           (transition "1" "checkin") (transition "1" "checkout") hotel
           "checkin" "checkout" "1"
           Booking.Checked_In Room.Occupied
           Booking.Checked_Out Room.Available);
    try reflexivity.
  - discriminate.
  - left. reflexivity.
  - right. left. reflexivity.
Defined.

(** X9 at the page of rooms. *)
Lemma get_changes_nothing_witness :
  snd (app (L := Text.library) Rooms (mk_request GET [] []) hotel) = hotel.
Proof.
  apply (get_changes_nothing (L := Text.library) Rooms
           (mk_request GET [] []) hotel).
  - reflexivity.
  - discriminate.
  - left. discriminate.
Defined.

(** X10 at a second guest of [hotel]. *)
Lemma create_guest_outcomes_witness :
  fst (guests (L := Text.library) (createGuest "  B ") hotel)
  = RedirectTo "guests" (Some Guest_added)
  /\ DB.guests (snd (guests (L := Text.library) (createGuest "  B ") hotel))
     = DB.guests hotel ++ [Guest.mk 2 "B" "" ""]
  /\ DB.rooms (snd (guests (L := Text.library) (createGuest "  B ") hotel))
     = DB.rooms hotel
  /\ DB.bookings (snd (guests (L := Text.library) (createGuest "  B ") hotel))
     = DB.bookings hotel.
Proof.
  apply (proj2 (create_guest_outcomes (L := Text.library)
                  (createGuest "  B ") hotel "B"
                  hotel_reachable eq_refl eq_refl)).
  discriminate.
Defined.

(** X11 at the empty database. *)
Lemma seed_fills_empty_tables_witness :
  fst (seed (mk_request GET [] []) DB.empty)
  = RedirectTo "index" (Some Seeded)
  /\ snd (seed (mk_request GET [] [])
            (snd (seed (mk_request GET [] []) DB.empty)))
     = snd (seed (mk_request GET [] []) DB.empty).
Proof.
  split;
    apply (seed_fills_empty_tables (mk_request GET [] []) DB.empty eq_refl).
Defined.

(** X12 at the dates of the scenario, swapped. *)
Lemma total_without_nights_witness :
  compute_total_amount (L := Text.library) (Float.of_int 1500)
    "2024-01-03" "2024-01-01"
  = Some (S754_zero false).
Proof.
  destruct (Text.strptime "2024-01-03") as [d_in |] eqn:E1;
    [| discriminate E1].
  destruct (Text.strptime "2024-01-01") as [d_out |] eqn:E2;
    [| discriminate E2].
  apply (total_without_nights (L := Text.library) (Float.of_int 1500)
           "2024-01-03" "2024-01-01" d_in d_out E1 E2).
  injection E1 as <-. injection E2 as <-. reflexivity.
Defined.

(** X13 at the seeded database. *)
Lemma listings_newest_first_witness :
  map Room.number (api_rooms hotel_seeded) = ["201"; "102"; "101"]
  /\ map Guest.name (api_guests hotel_seeded)
     = ["Isha Patel"; "Aarav Sharma"].
Proof.
  destruct (listings_newest_first (L := Text.library) hotel_seeded)
    as [-> ->].
  - apply reachable_run, reachable_init.
  - split; reflexivity.
Defined.


(** X16 at a second booking of room 101 of [hotel]. *)
Lemma create_booking_succeeds_iff_witness :
  fst (bookings (L := Text.library)
         (createBooking "1" "1" "2024-02-01" "2024-02-03") hotel)
  = RedirectTo "bookings" (Some Booking_created).
Proof.
  apply (create_booking_succeeds_iff (L := Text.library)
           (createBooking "1" "1" "2024-02-01" "2024-02-03") hotel
           hotel_reachable eq_refl eq_refl).
  split; [| split].
  - destruct (Text.strptime "2024-02-01") as [d_in |] eqn:E1;
      [| discriminate E1].
    destruct (Text.strptime "2024-02-03") as [d_out |] eqn:E2;
      [| discriminate E2].
    exists "2024-02-01", "2024-02-03", d_in, d_out.
    repeat split; trivial.
    injection E1 as <-. injection E2 as <-. reflexivity.
  - exists hotel_room. split; [vm_compute; left |]; reflexivity.
  - exists (Guest.mk 1 "A" "" ""). split; [vm_compute; left |]; reflexivity.
Defined.

(** X17 at a room request without a number. *)
Lemma create_room_edge_cases_witness :
  rooms (L := Text.library) (createRoom "   " "Single" "abc") hotel
  = (Page "Rooms" (Some Room_number_required), hotel)
  /\ rooms (L := Text.library) (createRoom "102" "Single" "abc") hotel
     = (Raise ValueError, hotel).
Proof.
  split.
  - apply (proj1 (create_room_edge_cases (L := Text.library)
                    (createRoom "   " "Single" "abc") hotel "" "abc"
                    eq_refl eq_refl eq_refl)).
    reflexivity.
  - apply (proj1 (proj2 (create_room_edge_cases (L := Text.library)
                    (createRoom "102" "Single" "abc") hotel "102" "abc"
                    eq_refl eq_refl eq_refl)));
      try discriminate.
    reflexivity.
Defined.

(** X18 at the cancelled booking of [hotel_twice], through a check-in, a
    check-out and a further booking. *)
Lemma never_back_to_booked_witness :
  exists b',
    nth_error
      (DB.bookings
         (run (L := Text.library)
            [ (Bookings, transition "1" "checkin");
              (Bookings, createBooking "1" "1" "2024-03-01" "2024-03-02");
              (Bookings, transition "1" "checkout") ]
            hotel_twice)) 0 = Some b'
    /\ Booking.status b' <> Booking.Booked.
Proof.
  apply (never_back_to_booked (L := Text.library) _ hotel_twice 0%nat
           (Booking.set_status Booking.Cancelled hotel_booking)).
  - vm_compute. reflexivity.
  - discriminate.
Defined.
